(** * A shallow embedding of [scrape_bga.py] (bga-ladder-scraper)

    The scraper mirrors the BGA ladder into an SQLite database and archives
    IGC traces on disk.  This file models:
    - JSON / SQLite values, rows and tables, the SQL statements the script
      issues, and the uniqueness constraints of the schema;
    - the state the script mutates (database, archive directory, and the
      log of HTTP requests it issues), threaded through a state and
      exception monad, exceptions leaving the state as it was at the raise;
    - the entity resolvers, the task decomposer, the trace archiver, the
      flight ingestor, the pagination driver, the day, season and
      recent-days scrapes, and the bulk prefill of pilots, clubs and
      glider models. *)

From stdpp Require Import base gmap strings list pretty.
From Stdlib Require Import ZArith Lia.

(** ** Values *)

(** JSON values as decoded by [requests] and SQLite values as stored. *)
Inductive val : Type :=
  | VNull
  | VBool (b : bool)
  | VInt (z : Z)
  | VStr (s : string).

Global Instance val_eq_dec : EqDecision val.
Proof. solve_decision. Defined.

(** Python truthiness, used by [fd["Wood"] or fd["Wooden"]]. *)
Definition truthy (v : val) : bool :=
  match v with
  | VNull => false
  | VBool b => b
  | VInt z => negb (Z.eqb z 0)
  | VStr s => negb (bool_decide (s = ""))
  end.

(** [str(v)], used to format the trace URL. *)
Definition py_str (v : val) : string :=
  match v with
  | VNull => "None"
  | VBool true => "True"
  | VBool false => "False"
  | VInt z => pretty z
  | VStr s => s
  end.

(** ** Association lists: SQL rows and Python dicts kept in insertion order *)

Fixpoint assoc_get (k : string) (d : list (string * val)) : option val :=
  match d with
  | [] => None
  | (k', v) :: d' => if bool_decide (k = k') then Some v else assoc_get k d'
  end.

(** [d[k] = v] on a Python dict: update in place, or append a new key. *)
Fixpoint dict_set (k : string) (v : val) (d : list (string * val))
    : list (string * val) :=
  match d with
  | [] => [(k, v)]
  | (k', v') :: d' =>
      if bool_decide (k = k') then (k, v) :: d' else (k', v') :: dict_set k v d'
  end.

(** A row: column name to value; a column not given is NULL. *)
Abbreviation row := (list (string * val)).
Abbreviation table := (list row).

Definition col (r : row) (c : string) : val := default VNull (assoc_get c r).

(** SQL [a = b]: NULL is equal to nothing. *)
Definition sql_eq (a b : val) : bool :=
  match a, b with
  | VNull, _ | _, VNull => false
  | _, _ => bool_decide (a = b)
  end.

Definition row_matches (conds : list (string * val)) (r : row) : bool :=
  forallb (fun cv => sql_eq (col r cv.1) cv.2) conds.

(** ** Program state *)

(** A request issued through [requests_get]: URL and query parameters. *)
Abbreviation request := (string * list (string * val))%type.

Record st : Type := mkSt {
  st_db : gmap string table;                  (** table name to rows *)
  st_fs : gmap (list string) (list Byte.byte);     (** path components to file *)
  st_log : list request                       (** HTTP requests issued *)
}.

Definition tbl (s : st) (t : string) : table := default [] (st_db s !! t).

Definition set_tbl (t : string) (rows : table) (s : st) : st :=
  mkSt (<[t := rows]> (st_db s)) (st_fs s) (st_log s).

(** Python exceptions raised by the script.  [Diverges] is not one: it
    marks a loop model that ran out of fuel before the Python loop stopped. *)
Inductive exn : Type :=
  | NotFound
  | KeyError (k : string)
  | IntegrityError
  | TypeError
  | ValueError
  | IndexError
  | ExistingFlight
  | Diverges.

(** ** State and exception monad *)

Definition M (A : Type) : Type := st -> (exn + A) * st.

Global Instance M_ret : MRet M := fun A x s => (inr x, s).
Global Instance M_bind : MBind M := fun A B f m s =>
  match m s with
  | (inl e, s') => (inl e, s')
  | (inr x, s') => f x s'
  end.

Definition raise {A} (e : exn) : M A := fun s => (inl e, s).

Definition modify (f : st -> st) : M unit := fun s => (inr tt, f s).

(** ** SQL statements *)

(** Modelled from the spec: the schema script ([schema.sql]) is not in the
    repository.  Section 3 of the spec declares unique: pilot ladder id,
    club ladder code, glider model ladder id, glider registration, trace
    hash and flight ladder id; every table but [task] has an
    auto-assigned surrogate key [id] (an SQLite rowid alias). *)
Definition unique_cols (t : string) : list string :=
  match t with
  | "pilot" => ["id"; "ladder_id"]
  | "club" => ["id"; "ladder_code"]
  | "glider_model" => ["id"; "ladder_id"]
  | "glider" => ["id"; "reg"]
  | "trace" => ["id"; "sha256_hash"]
  | "flight" => ["id"; "ladder_id"]
  | _ => []
  end%string.

Definition has_rowid (t : string) : bool := negb (bool_decide (t = "task")).

(** SQLite's next rowid: one more than the largest one in use. *)
Definition next_rowid (rows : table) : Z :=
  (1 + foldr (fun r m => match col r "id" with VInt z => Z.max z m | _ => m end)
            0%Z rows)%Z.

Definition with_rowid (t : string) (rows : table) (r : row) : row :=
  if has_rowid t && bool_decide (col r "id" = VNull)
  then ("id", VInt (next_rowid rows)) :: r else r.

Definition violates_unique (t : string) (rows : table) (r : row) : bool :=
  existsb (fun c => existsb (fun r0 => sql_eq (col r0 c) (col r c)) rows)
          (unique_cols t).

(** [insert into t (...) values (...)]. *)
Definition db_insert (t : string) (r : row) : M unit := fun s =>
  let rows := tbl s t in
  let r' := with_rowid t rows r in
  if violates_unique t rows r' then (inl IntegrityError, s)
  else (inr tt, set_tbl t (rows ++ [r']) s).

(** The first row, in table order, satisfying the [where] clause. *)
Fixpoint find_row (conds : list (string * val)) (rows : table) : option row :=
  match rows with
  | [] => None
  | r :: rows' => if row_matches conds r then Some r else find_row conds rows'
  end.

(** [select (id) from t where c1 = ? and ...] followed by [fetchone()]. *)
Definition select_id (t : string) (conds : list (string * val))
    : M (option val) := fun s =>
  (inr (option_map (fun r => col r "id") (find_row conds (tbl s t))), s).

(** [cur.fetchone()[0]]: subscripting [None] raises [TypeError]. *)
Definition fetch_id (o : option val) : M val :=
  match o with Some v => mret v | None => raise TypeError end.

(** [select count(distinct c) from t]: NULLs are not counted. *)
Definition count_distinct (t : string) (c : string) : M nat := fun s =>
  (inr (length (remove_dups (filter (fun v => v <> VNull)
                                    (map (fun r => col r c) (tbl s t))))), s).

(** [executemany]: one insert per row, in order. *)
Fixpoint executemany (t : string) (rows : list row) : M unit :=
  match rows with
  | [] => mret tt
  | r :: rows' => db_insert t r;; executemany t rows'
  end.

(** ** Flight records *)

(** One element of the [rows] array of [DailyScores]: a JSON object. *)
Abbreviation flight_rec := (gmap string val).

(** [fd[k]]. *)
Definition getitem (fd : flight_rec) (k : string) : M val :=
  match fd !! k with Some v => mret v | None => raise (KeyError k) end.

(** [fd.get(k)]: [None] both for a missing key and for a JSON null. *)
Definition dict_get (fd : flight_rec) (k : string) : option val :=
  match fd !! k with
  | None | Some VNull => None
  | Some v => Some v
  end.

(** ** Entity resolvers *)

Definition get_or_create_pilot (forename surname ladder_id : val) : M val :=
  existing ← select_id "pilot"
    [("forename", forename); ("surname", surname); ("ladder_id", ladder_id)];
  match existing with
  | Some id => mret id
  | None =>
      db_insert "pilot"
        [("forename", forename); ("surname", surname); ("ladder_id", ladder_id)];;
      select_id "pilot" [("ladder_id", ladder_id)] ≫= fetch_id
  end.

Definition get_or_create_club (bgal_club_code : val) : M val :=
  existing ← select_id "club" [("ladder_code", bgal_club_code)];
  match existing with
  | Some id => mret id
  | None =>
      db_insert "club" [("ladder_code", bgal_club_code)];;
      select_id "club" [("ladder_code", bgal_club_code)] ≫= fetch_id
  end.

Definition get_or_create_glider_model (model_name bgal_model_id : val) : M val :=
  existing ← select_id "glider_model" [("model_name", model_name)];
  match existing with
  | Some id => mret id
  | None =>
      db_insert "glider_model"
        [("model_name", model_name); ("ladder_id", bgal_model_id)];;
      select_id "glider_model" [("ladder_id", bgal_model_id)] ≫= fetch_id
  end.

Definition get_or_create_glider (reg model_id : val) : M val :=
  existing ← select_id "glider" [("reg", reg)];
  match existing with
  | Some id => mret id
  | None =>
      db_insert "glider" [("reg", reg); ("model", model_id)];;
      select_id "glider" [("reg", reg)] ≫= fetch_id
  end.

(** ** Task decomposer ([insert_task]) *)

(** [f"TP{i}"]. *)
Definition tp_key (i : nat) : string := ("TP" ++ pretty i)%string.

(** [maybe_append]: the list after the call, and the returned flag. *)
Definition maybe_append (codes : list val) (code : option val)
    : list val * bool :=
  match code with
  | None => (codes, false)
  | Some v =>
      if bool_decide (v = VStr "") then (codes, false) else (codes ++ [v], true)
  end.

(** [for i in itertools.count(i): if not maybe_append(...): break].  The
    Python loop is unbounded; it stops at the first key [TPi] missing from
    the (finite) record, so [size fd + 1] rounds always suffice
    ([tp_scan_enough] below). *)
Fixpoint tp_scan (fuel : nat) (fd : flight_rec) (i : nat) (codes : list val)
    : list val :=
  match fuel with
  | O => codes
  | S fuel' =>
      let '(codes', appended) := maybe_append codes (dict_get fd (tp_key i)) in
      if appended then tp_scan fuel' fd (S i) codes' else codes'
  end.

Definition turnpoint_codes (fd : flight_rec) : list val :=
  let codes := (maybe_append [] (dict_get fd "StartPoint")).1 in
  let codes := tp_scan (S (size fd)) fd 1 codes in
  (maybe_append codes (dict_get fd "FinishPoint")).1.

Definition task_row (task_id : Z) (i : nat) (code : val) : row :=
  [("id", VInt task_id); ("turnpoint_index", VInt (Z.of_nat i));
   ("turnpoint_code", code)].

Definition insert_task (fd : flight_rec) : M val :=
  n ← count_distinct "task" "id";
  let task_id := Z.of_nat n in
  let turnpoint_codes := turnpoint_codes fd in
  executemany "task" (imap (task_row task_id) turnpoint_codes);;
  mret (VInt task_id).

(** ** Hex digests *)

Definition hex_char (n : nat) : Ascii.ascii :=
  nth n (String.list_ascii_of_string "0123456789abcdef") Ascii.zero.

Definition byte_hex (b : Byte.byte) : string :=
  let n := Byte.to_nat b in
  String (hex_char (n / 16)) (String (hex_char (n mod 16)) EmptyString).

(** [.hexdigest()] of a digest. *)
Definition hexdigest (d : list Byte.byte) : string :=
  foldr (fun b acc => (byte_hex b ++ acc)%string) EmptyString d.

(** [h[i]]. *)
Definition str_index (h : string) (i : nat) : M string :=
  match String.get i h with
  | Some c => mret (String c EmptyString)
  | None => raise IndexError
  end.

(** ** The outside world *)

(** What the script takes from libraries and the network. *)
Record env : Type := mkEnv {
  (** [hashlib.sha256(content).digest()] *)
  sha256_digest : list Byte.byte -> list Byte.byte;
  (** [datetime.strptime(s, "%Y-%m-%dT%H:%M:%S")]; [None]: ValueError *)
  parse_flight_date : string -> option val;
  (** [requests.get(url).content]; [None]: a non-200 status *)
  http_content : string -> option (list Byte.byte);
  (** [requests.get(url, params).json()["rows"]]; [None]: a non-200 status *)
  http_rows : string -> list (string * val) -> option (list flight_rec);
  (** [datetime.now()] *)
  clock : val
}.

Section Scraper.
Context (E : env).

Definition log_request (url : string) (params : list (string * val)) : M unit :=
  modify (fun s => mkSt (st_db s) (st_fs s) (st_log s ++ [(url, params)])).

(** [requests_get(url)] read through [.content]. *)
Definition requests_get_content (url : string) : M (list Byte.byte) :=
  log_request url [];;
  match http_content E url with
  | Some b => mret b
  | None => raise NotFound
  end.

(** [requests_get(url, params)] read through [.json()["rows"]]. *)
Definition requests_get_rows (url : string) (params : list (string * val))
    : M (list flight_rec) :=
  log_request url params;;
  match http_rows E url params with
  | Some rows => mret rows
  | None => raise NotFound
  end.

(** [try: ... except NotFound: return None]. *)
Definition try_notfound {A} (m : M A) : M (option A) := fun s =>
  match m s with
  | (inl NotFound, s') => (inr None, s')
  | (inl e, s') => (inl e, s')
  | (inr x, s') => (inr (Some x), s')
  end.

(** [open(full_path, "wb").write(content)]; the parent directories made by
    [mkdir(parents=True, exist_ok=True)] are implicit in the path. *)
Definition write_file (full_path : list string) (content : list Byte.byte)
    : M unit :=
  modify (fun s => mkSt (st_db s) (<[full_path := content]> (st_fs s)) (st_log s)).

(** *** Trace archiver *)

Definition archive_path_of (sha256_hash : string) : M (list string) :=
  c0 ← str_index sha256_hash 0;
  c1 ← str_index sha256_hash 1;
  mret [c0; c1; sha256_hash].

Definition download_and_archive_trace (archive_root : list string)
    (flight_details : flight_rec) : M (option val) :=
  flight_id ← getitem flight_details "FlightID";
  let url := ("https://www.bgaladder.net/FlightIGC/" ++ py_str flight_id)%string in
  original_filename ← getitem flight_details "LoggerFile";
  let downloaded_at := clock E in
  r ← try_notfound (requests_get_content url);
  match r with
  | None => mret None
  | Some content =>
      let sha256_hash := hexdigest (sha256_digest E content) in
      existing ← select_id "trace" [("sha256_hash", VStr sha256_hash)];
      match existing with
      | Some id => mret (Some id)
      | None =>
          archive_path ← archive_path_of sha256_hash;
          let full_path := archive_root ++ archive_path in
          write_file full_path content;;
          db_insert "trace"
            [("downloaded_at", downloaded_at);
             ("original_filename", original_filename);
             ("sha256_hash", VStr sha256_hash)];;
          id ← select_id "trace" [("sha256_hash", VStr sha256_hash)] ≫= fetch_id;
          mret (Some id)
      end
  end.

(** *** Flight ingestor *)

(** [datetime.strptime(v, ...)]: a non-string argument is a TypeError. *)
Definition strptime (v : val) : M val :=
  match v with
  | VStr s =>
      match parse_flight_date E s with
      | Some d => mret d
      | None => raise ValueError
      end
  | _ => raise TypeError
  end.

(** [a or b] with [b] evaluated only when [a] is falsy. *)
Definition py_or (a : M val) (b : M val) : M val :=
  x ← a; if truthy x then mret x else b.

Definition insert_bga_flight (archive_root : list string) (flight_details : flight_rec)
    (scraped_at : val) : M unit :=
  let fd := flight_details in
  ladder_id ← getitem fd "FlightID";
  existing ← select_id "flight" [("ladder_id", ladder_id)];
  match existing with
  | Some _ => raise ExistingFlight
  | None =>
      forename ← getitem fd "Forename";
      surname ← getitem fd "Surname";
      pilot_ladder_id ← getitem fd "PilotID";
      pilot_id ← get_or_create_pilot forename surname pilot_ladder_id;
      club_code ← getitem fd "ClubID";
      club_id ← get_or_create_club club_code;
      glider_name ← getitem fd "Glider";
      glider_code ← getitem fd "GliderCode";
      glider_model_id ← get_or_create_glider_model glider_name glider_code;
      registration ← getitem fd "Registration";
      glider_id ← get_or_create_glider registration glider_model_id;
      trace_id ← download_and_archive_trace archive_root flight_details;
      task_id ← insert_task fd;
      flight_date ← getitem fd "FlightDate" ≫= strptime;
      weekend ← getitem fd "Weekend";
      junior ← getitem fd "Junior";
      height ← getitem fd "Height";
      two_seater ← getitem fd "TwoSeater";
      wooden ← py_or (getitem fd "Wood") (getitem fd "Wooden");
      engine ← getitem fd "Engine";
      penalty ← getitem fd "Penalty";
      speed ← getitem fd "Speed";
      handicap_speed ← getitem fd "HandicapSpeed";
      scoring_distance ← getitem fd "ScoringDistance";
      speed_points ← getitem fd "SpeedPoints";
      height_gain ← getitem fd "HeightGain";
      height_points ← getitem fd "HeightPoints";
      total_points ← getitem fd "TotalPoints";
      db_insert "flight"
        [("pilot", pilot_id); ("club", club_id); ("glider", glider_id);
         ("trace", default VNull trace_id); ("flight_date", flight_date);
         ("scraped_at", scraped_at); ("is_weekend", weekend);
         ("is_junior", junior); ("is_height", height);
         ("is_two_seater", two_seater); ("is_wooden", wooden);
         ("has_engine", engine); ("penalty", penalty); ("task", task_id);
         ("speed", speed); ("handicap_speed", handicap_speed);
         ("scoring_distance", scoring_distance); ("speed_points", speed_points);
         ("height_gain", height_gain); ("height_points", height_points);
         ("total_points", total_points); ("ladder_id", ladder_id)]
      (* [db.commit()]: the model keeps no separate uncommitted state *)
  end.

(** *** Pagination driver ([get_daily_flights]) *)

Definition daily_scores_url : string := "https://www.bgaladder.net/API/DailyScores".

Definition opt_param (k : string) (v : option Z) (params : list (string * val))
    : list (string * val) :=
  match v with Some z => dict_set k (VInt z) params | None => params end.

(** [params = {"rows": page_size}] followed by the optional filters. *)
Definition initial_params (page_size : Z) (query_season query_month query_day : option Z)
    : list (string * val) :=
  opt_param "Day" query_day
    (opt_param "Month" query_month
       (opt_param "Season" query_season [("rows", VInt page_size)])).

(** [for flight in flights: process(scraped_at, flight)]; the callback's
    closure state [C] (its [nonlocal] variables) is passed explicitly. *)
Fixpoint process_all {C} (process : val -> flight_rec -> C -> M C)
    (scraped_at : val) (flights : list flight_rec) (c : C) : M C :=
  match flights with
  | [] => mret c
  | flight :: flights' =>
      c' ← process scraped_at flight c;
      process_all process scraped_at flights' c'
  end.

(** The loop [for page in itertools.count(1)], from page [page] on, with the
    dict [params] shared between iterations.  The Python loop is unbounded;
    [Diverges] reports that the fuel ran out before it stopped. *)
Fixpoint paginate_from {C} (fuel : nat) (process : val -> flight_rec -> C -> M C)
    (page_size : Z) (params : list (string * val)) (page : nat)
    (total_found : nat) (c : C) : M (nat * C) :=
  match fuel with
  | O => raise Diverges
  | S fuel' =>
      let params := dict_set "page" (VInt (Z.of_nat page)) params in
      flights ← requests_get_rows daily_scores_url params;
      let scraped_at := clock E in
      c ← process_all process scraped_at flights c;
      let total_found := (total_found + length flights)%nat in
      if bool_decide (Z.of_nat (length flights) < page_size)%Z
      then mret (total_found, c)
      else paginate_from fuel' process page_size params (S page) total_found c
  end.

(** Returns [total_found] together with the callback's final closure state. *)
Definition get_daily_flights {C} (fuel : nat) (process : val -> flight_rec -> C -> M C)
    (query_season query_month query_day : option Z) (page_size : Z) (c : C)
    : M (nat * C) :=
  paginate_from fuel process page_size
    (initial_params page_size query_season query_month query_day) 1 0 c.

(** *** Day scrape *)

Record date : Type := mkDate { year : Z; month : Z; day : Z }.

(** The [process] closure of [scrape_day]; [new_flights] is its [nonlocal]. *)
Definition scrape_process (archive_root : list string) (scraped_at : val)
    (flight_details : flight_rec) (new_flights : nat) : M nat := fun s =>
  match insert_bga_flight archive_root flight_details scraped_at s with
  | (inr _, s') => (inr (S new_flights), s')
  | (inl ExistingFlight, s') => (inr new_flights, s')
  | (inl e, s') => (inl e, s')
  end.

Definition scrape_day (fuel : nat) (archive_root : list string) (query_date : date)
    : M (nat * nat) :=
  get_daily_flights fuel (scrape_process archive_root)
    (Some (year query_date)) (Some (day query_date)) (Some (day query_date))
    100 0%nat.

(** The pagination the spec describes, over the pages [pages] the server
    returns: request the listing's pages [page], [page + 1], ... in turn (the
    filters [params] with the page number set), feeding the records of each
    page to the callback, one call per record in arrival order. *)
Fixpoint spec_page_sweep {C} (process : val -> flight_rec -> C -> M C)
    (params : list (string * val)) (pages : list (list flight_rec)) (page : nat)
    (c : C) : M C :=
  match pages with
  | [] => mret c
  | flights :: pages' =>
      log_request daily_scores_url (dict_set "page" (VInt (Z.of_nat page)) params);;
      c' ← process_all process (clock E) flights c;
      spec_page_sweep process params pages' (S page) c'
  end.

End Scraper.

(** *** Bulk prefill of the reference tables *)

(** [cur.executemany(sql, (row(x) for x in data))]: the generator builds
    each row just before it is inserted, so a [KeyError] raised while
    building one row comes after the inserts of the rows before it. *)
Fixpoint executemany_gen (t : string) (mk : gmap string val -> M row)
    (data : list (gmap string val)) : M unit :=
  match data with
  | [] => mret tt
  | x :: data' => r ← mk x; db_insert t r;; executemany_gen t mk data'
  end.

Section Prefill.
(** [requests_get(url).json()] of the ladder's bulk endpoints, each a JSON
    array of objects; [None]: a non-200 status. *)
Context (api_json : string -> option (list (gmap string val))).

(** [requests_get(url).json()]. *)
Definition requests_get_json (url : string) : M (list (gmap string val)) :=
  log_request url [];;
  match api_json url with
  | Some data => mret data
  | None => raise NotFound
  end.

(** The generator of [prefill_glider_models]. *)
Definition glider_model_params (g : gmap string val) : M row :=
  model_name ← getitem g "GliderType";
  seats ← getitem g "Seats";
  vintage ← getitem g "Vintage";
  turbo ← getitem g "Turbo";
  handicap ← getitem g "Handicap";
  ladder_id ← getitem g "GliderID";
  mret [("model_name", model_name); ("seats", seats); ("vintage", vintage);
        ("turbo", turbo); ("handicap", handicap); ("ladder_id", ladder_id)].

Definition prefill_glider_models : M unit :=
  data ← requests_get_json "https://www.bgaladder.net/api/Gliders";
  executemany_gen "glider_model" glider_model_params data.

(** The generator of [prefill_clubs]. *)
Definition club_params (c : gmap string val) : M row :=
  club_name ← getitem c "Name";
  is_university ← getitem c "University";
  ladder_code ← getitem c "ID";
  mret [("club_name", club_name); ("is_university", is_university);
        ("ladder_code", ladder_code)].

Definition prefill_clubs : M unit :=
  data ← requests_get_json "https://www.bgaladder.net/api/Clubs";
  executemany_gen "club" club_params data.

(** The generator of [prefill_pilots]. *)
Definition pilot_params (p : gmap string val) : M row :=
  forename ← getitem p "ForeName";
  surname ← getitem p "Surname";
  ladder_id ← getitem p "ID";
  mret [("forename", forename); ("surname", surname); ("ladder_id", ladder_id)].

Definition prefill_pilots : M unit :=
  data ← requests_get_json "https://www.bgaladder.net/api/ActivePilots";
  executemany_gen "pilot" pilot_params data.

End Prefill.

(** *** Season and recent-days scrapes *)

Section Scrapes.
Context (E : env).

(** [scrape_season]: the [process] closure is [scrape_day]'s; the totals are
    only logged, and the function returns [None]. *)
Definition scrape_season (fuel : nat) (archive_root : list string) (season : Z)
    : M unit :=
  '(total_found, new_flights) ←
    get_daily_flights E fuel (scrape_process E archive_root) (Some season) None None
      100 0%nat;
  mret tt.

(** [today + timedelta(days=k)], datetime's calendar arithmetic (its
    [OverflowError] below year 1 is not modelled). *)
Context (date_add : date -> Z -> date).

(** The loop [for lookback in ...] of [scrape_last_n_days], with the running
    totals [found_flights] and [new_flights]. *)
Fixpoint scrape_days (fuel : nat) (archive_root : list string) (today : date)
    (lookbacks : list nat) (found_flights new_flights : nat) : M (nat * nat) :=
  match lookbacks with
  | [] => mret (found_flights, new_flights)
  | lookback :: lookbacks' =>
      '(a, b) ← scrape_day E fuel archive_root (date_add today (- Z.of_nat lookback));
      scrape_days fuel archive_root today lookbacks' (found_flights + a) (new_flights + b)
  end.

(** [scrape_last_n_days], with [today = date.today()]; [range(lookback_days)]
    is empty when [lookback_days <= 0].  The totals are only logged. *)
Definition scrape_last_n_days (fuel : nat) (archive_root : list string) (today : date)
    (lookback_days : Z) : M unit :=
  '(found_flights, new_flights) ←
    scrape_days fuel archive_root today (seq 0 (Z.to_nat lookback_days)) 0 0;
  mret tt.

End Scrapes.

(** ** Readings of the specification *)

(** The spec's "the code under key [k], if present and non-empty", as a
    list of zero or one codes. *)
Definition present_code (fd : flight_rec) (k : string) : list val :=
  match dict_get fd k with
  | Some v => if bool_decide (v = VStr "") then [] else [v]
  | None => []
  end.

(** [select count(distinct id) from task] on a state. *)
Definition task_count (s : st) : nat :=
  length (remove_dups (filter (fun v => v <> VNull)
                              (map (fun r => col r "id") (tbl s "task")))).

(** ** Auxiliary definitions

    Predicates the proofs below are stated with, and the sample inputs
    their witnesses run on. *)

(** The state after appending [rows] to table [t]; no rows, no change
    (an [executemany] with no rows runs no statement). *)
Definition append_rows (t : string) (rows : table) (s : st) : st :=
  match rows with [] => s | _ => set_tbl t (tbl s t ++ rows) s end.

(** [s'] differs from [s] at most in the tables [T]. *)
Definition frame (T : list string) (s s' : st) : Prop :=
  forall t, t ∉ T -> tbl s' t = tbl s t.

(** A computation that writes no table outside [T]. *)
Definition touches {A} (T : list string) (m : M A) : Prop :=
  forall s, frame T s (m s).2.

(** A computation that never changes the state. *)
Definition readonly {A} (m : M A) : Prop := forall s, (m s).2 = s.

(** Every task row carries an integer id below the current count. *)
Definition task_ids_wf (s : st) : Prop :=
  forall r, r ∈ tbl s "task" ->
    exists z, col r "id" = VInt z /\ (0 <= z < Z.of_nat (task_count s))%Z.

(** An empty database and archive, and no request made yet. *)
Definition s_empty : st := mkSt ∅ ∅ [].

(** A stand-in digest: the first 32 bytes of the content, zero-padded. *)
Definition sample_digest (b : list Byte.byte) : list Byte.byte :=
  take 32 (b ++ repeat Byte.x00 32).

(** A server that answers page [p] of [DailyScores] with [pages !! (p - 1)]. *)
Definition sample_rows (pages : list (list flight_rec)) (url : string)
    (params : list (string * val)) : option (list flight_rec) :=
  match assoc_get "page" params with
  | Some (VInt z) => Some (default [] (pages !! (Z.to_nat z - 1)%nat))
  | _ => Some []
  end.

Definition sample_env (igc : option (list Byte.byte)) (pages : list (list flight_rec)) : env :=
  mkEnv sample_digest (fun d => Some (VStr d)) (fun _ => igc) (sample_rows pages)
        (VStr "2023-06-15 18:00:00").

(** A complete [DailyScores] row, with the given turnpoint fields. *)
Definition sample_flight (flight_id : Z) (turnpoints : list (string * val)) : flight_rec :=
  list_to_map (turnpoints ++
    [("FlightID", VInt flight_id); ("LoggerFile", VStr "flight.igc");
     ("Forename", VStr "Ann"); ("Surname", VStr "Smith"); ("PilotID", VInt 7);
     ("ClubID", VStr "CAM"); ("Glider", VStr "LS8"); ("GliderCode", VInt 42);
     ("Registration", VStr "G-CKLS"); ("FlightDate", VStr "2023-06-15T00:00:00");
     ("Weekend", VBool false); ("Junior", VBool false); ("Height", VBool false);
     ("TwoSeater", VBool false); ("Wood", VBool false); ("Wooden", VBool false);
     ("Engine", VBool false); ("Penalty", VInt 0); ("Speed", VInt 80);
     ("HandicapSpeed", VInt 75); ("ScoringDistance", VInt 300);
     ("SpeedPoints", VInt 10); ("HeightGain", VInt 0); ("HeightPoints", VInt 0);
     ("TotalPoints", VInt 1000)]).

(** A three-byte trace file. *)
Definition sample_igc : list Byte.byte := [Byte.x41; Byte.x42; Byte.x43].

(** A computation that never raises [e]. *)
Definition avoids {A} (e : exn) (m : M A) : Prop := forall s, (m s).1 <> inl e.

(** The URL [download_and_archive_trace] fetches a flight's trace from. *)
Definition igc_url (flight_id : val) : string :=
  ("https://www.bgaladder.net/FlightIGC/" ++ py_str flight_id)%string.

(** The trace row [download_and_archive_trace] inserts. *)
Definition trace_row (E : env) (lf : val) (h : string) : row :=
  [("downloaded_at", clock E); ("original_filename", lf); ("sha256_hash", VStr h)].

(** The natural key [get_or_create_pilot] looks a pilot up by. *)
Definition pilot_key (f sn l : val) : list (string * val) :=
  [("forename", f); ("surname", sn); ("ladder_id", l)].

(** A database holding one pilot, Joe Roberts, with ladder id 7. *)
Definition s_joe : st :=
  set_tbl "pilot" [[("id", VInt 1); ("forename", VStr "Joe"); ("surname", VStr "Roberts");
                    ("ladder_id", VInt 7)]] s_empty.

(** A callback that counts the records it is given. *)
Definition count_process (scraped_at : val) (flight : flight_rec) (n : nat) : M nat :=
  mret (S n).

(** Listing pages of 100, 100 and 47 records, and of 100, 100, 100 and 0. *)
Definition full_page : list flight_rec := repeat ∅ 100.

Definition pages_247 : list (list flight_rec) := [full_page; full_page; repeat ∅ 47].

Definition pages_300 : list (list flight_rec) := [full_page; full_page; full_page; []].

(** [s'] keeps every row of [s], in place, in every table; new rows may follow. *)
Definition db_grows (s s' : st) : Prop := forall t, exists l, tbl s' t = tbl s t ++ l.

(** A computation that never updates or deletes a row, whatever its outcome. *)
Definition appends {A} (m : M A) : Prop := forall s, db_grows s (m s).2.

(** A listing record whose non-NULL [FlightID] is the ladder id of a stored flight. *)
Definition flight_known (s : st) (fd : flight_rec) : Prop :=
  exists v r, fd !! "FlightID" = Some v /\ v <> VNull /\
    r ∈ tbl s "flight" /\ col r "ladder_id" = v.

(** The listing never gives a record a JSON null [FlightID]. *)
Definition listing_ids_nonnull (E : env) : Prop :=
  forall url params rows fd, http_rows E url params = Some rows -> fd ∈ rows ->
    fd !! "FlightID" <> Some VNull.

(** Bulk endpoints answering one glider model, one club and two pilots. *)
Definition sample_api (url : string) : option (list (gmap string val)) :=
  if bool_decide (url = "https://www.bgaladder.net/api/Gliders") then
    Some [list_to_map [("GliderType", VStr "LS8"); ("Seats", VInt 1);
                       ("Vintage", VBool false); ("Turbo", VBool false);
                       ("Handicap", VInt 108); ("GliderID", VInt 42)]]
  else if bool_decide (url = "https://www.bgaladder.net/api/Clubs") then
    Some [list_to_map [("Name", VStr "Cambridge"); ("University", VBool false);
                       ("ID", VStr "CAM")]]
  else if bool_decide (url = "https://www.bgaladder.net/api/ActivePilots") then
    Some [list_to_map [("ForeName", VStr "Ann"); ("Surname", VStr "Smith"); ("ID", VInt 7)];
          list_to_map [("ForeName", VStr "Joe"); ("Surname", VStr "Roberts"); ("ID", VInt 8)]]
  else None.

(** A one-page listing of two flights. *)
Definition pages_two : list (list flight_rec) := [[sample_flight 1001 []; sample_flight 1002 []]].

(** Adding days to a date by its day field alone (enough inside a month). *)
Definition sample_date_add (d : date) (k : Z) : date := mkDate (year d) (month d) (day d + k).

(** ** Basic facts about tables *)

Lemma tbl_set_tbl_eq t rows s : tbl (set_tbl t rows s) t = rows.
Proof. unfold tbl, set_tbl; simpl. by rewrite lookup_insert_eq. Qed.

Lemma tbl_set_tbl_ne t t' rows s : t <> t' -> tbl (set_tbl t rows s) t' = tbl s t'.
Proof. intros Hne. unfold tbl, set_tbl; simpl. by rewrite lookup_insert_ne. Qed.

Lemma set_tbl_set_tbl t a b s : set_tbl t a (set_tbl t b s) = set_tbl t a s.
Proof. unfold set_tbl; simpl. by rewrite insert_insert_eq. Qed.

(** The task table has no constraint and no rowid: an insert always appends. *)
Lemma db_insert_task r s :
  db_insert "task" r s = (inr tt, set_tbl "task" (tbl s "task" ++ [r]) s).
Proof. reflexivity. Qed.

Lemma executemany_task rows s :
  rows <> [] ->
  executemany "task" rows s = (inr tt, set_tbl "task" (tbl s "task" ++ rows) s).
Proof.
  revert s. induction rows as [|r rows IH]; intros s Hne; [done|].
  destruct rows as [|r' rows'].
  - reflexivity.
  - change (executemany "task" (r :: r' :: rows') s) with
      (executemany "task" (r' :: rows') (set_tbl "task" (tbl s "task" ++ [r]) s)).
    rewrite IH by done. rewrite set_tbl_set_tbl, tbl_set_tbl_eq.
    by rewrite <- app_assoc.
Qed.

(** ** The turnpoint scan *)

Lemma maybe_append_cases codes fd k :
  (present_code fd k = [] /\ maybe_append codes (dict_get fd k) = (codes, false)) \/
  (exists v, present_code fd k = [v] /\
             maybe_append codes (dict_get fd k) = (codes ++ [v], true)).
Proof.
  unfold present_code, maybe_append.
  destruct (dict_get fd k) as [v|]; [|by left].
  case_bool_decide; [by left | right; by exists v].
Qed.

Lemma maybe_append_fst codes fd k :
  (maybe_append codes (dict_get fd k)).1 = codes ++ present_code fd k.
Proof.
  destruct (maybe_append_cases codes fd k) as [[-> ->]|(v & -> & ->)]; simpl;
    [by rewrite app_nil_r | done].
Qed.

Lemma tp_scan_gap fuel fd i codes j :
  i <= j < i + fuel -> present_code fd (tp_key j) = [] ->
  exists k, (forall j', i <= j' < i + k -> present_code fd (tp_key j') <> []) /\
            present_code fd (tp_key (i + k)) = [] /\
            tp_scan fuel fd i codes =
              codes ++ concat (map (fun j' => present_code fd (tp_key j')) (seq i k)).
Proof.
  revert i codes. induction fuel as [|fuel IH]; intros i codes Hj Hgap; [lia|].
  cbn [tp_scan].
  destruct (maybe_append_cases codes fd (tp_key i)) as [[Hi ->]|(v & Hi & ->)].
  - exists 0. split; [lia|]. rewrite Nat.add_0_r. split; [done|].
    simpl. by rewrite app_nil_r.
  - assert (i <> j) by (intros ->; congruence).
    destruct (IH (S i) (codes ++ [v])) as (k & Hall & Hend & Heq); [lia|done|].
    exists (S k). split; [|split].
    + intros j' Hj'. destruct (decide (j' = i)) as [->|]; [by rewrite Hi|].
      apply Hall. lia.
    + by replace (i + S k) with (S i + k) by lia.
    + rewrite Heq. simpl. rewrite Hi. by rewrite <- app_assoc.
Qed.

Lemma tp_key_inj : Inj (=) (=) tp_key.
Proof.
  intros a b H. unfold tp_key in H. simpl in H. injection H as H.
  by apply (inj pretty).
Qed.
#[local] Existing Instance tp_key_inj.

Lemma present_code_dom fd k : present_code fd k <> [] -> k ∈ dom fd.
Proof.
  unfold present_code, dict_get. intros H. apply elem_of_dom.
  destruct (fd !! k); [done|]. by contradiction H.
Qed.

(** Only finitely many of [TP1], [TP2], ... are keys of a record. *)
Lemma tp_gap_exists fd :
  exists j, 1 <= j < 1 + S (size fd) /\ present_code fd (tp_key j) = [].
Proof.
  destruct (decide (Exists (fun j => present_code fd (tp_key j) = [])
                           (seq 1 (S (size fd))))) as [Hex|Hnex].
  - apply Exists_exists in Hex as (j & Hin & Hj).
    apply elem_of_seq in Hin. exists j. split; [lia|done].
  - exfalso. apply not_Exists_Forall in Hnex; [|intros x; apply _].
    assert (Hsub : list_to_set (map tp_key (seq 1 (S (size fd)))) ⊆ dom fd).
    { intros k Hk. apply elem_of_list_to_set in Hk.
      apply list_elem_of_fmap in Hk as (j & -> & Hj).
      apply present_code_dom. rewrite Forall_forall in Hnex.
      apply (Hnex j Hj). }
    apply subseteq_size in Hsub.
    rewrite size_list_to_set in Hsub.
    + rewrite length_map, length_seq, size_dom in Hsub. lia.
    + apply NoDup_fmap_2; [apply _|apply NoDup_seq].
Qed.

Lemma turnpoint_codes_spec fd :
  exists k,
    (forall j, 1 <= j <= k -> present_code fd (tp_key j) <> []) /\
    present_code fd (tp_key (S k)) = [] /\
    turnpoint_codes fd =
      present_code fd "StartPoint" ++
      concat (map (fun j => present_code fd (tp_key j)) (seq 1 k)) ++
      present_code fd "FinishPoint".
Proof.
  destruct (tp_gap_exists fd) as (j & Hj & Hgap).
  destruct (tp_scan_gap (S (size fd)) fd 1 (present_code fd "StartPoint") j)
    as (k & Hall & Hend & Heq); [lia|done|].
  exists k. split; [intros j' ?; apply Hall; lia|]. split; [done|].
  unfold turnpoint_codes. rewrite !maybe_append_fst, app_nil_l, Heq.
  by rewrite <- app_assoc.
Qed.

Lemma executemany_task_any rows s :
  executemany "task" rows s = (inr tt, append_rows "task" rows s).
Proof.
  destruct rows as [|r rows]; [reflexivity|].
  by apply executemany_task.
Qed.

Lemma tbl_append_rows_eq t rows s : tbl (append_rows t rows s) t = tbl s t ++ rows.
Proof.
  destruct rows; simpl; [by rewrite app_nil_r|]. by rewrite tbl_set_tbl_eq.
Qed.

Lemma tbl_append_rows_ne t t' rows s :
  t <> t' -> tbl (append_rows t rows s) t' = tbl s t'.
Proof. intros. destruct rows; simpl; [done|]. by rewrite tbl_set_tbl_ne. Qed.

Lemma insert_task_run fd s :
  insert_task fd s =
    (inr (VInt (Z.of_nat (task_count s))),
     append_rows "task" (imap (task_row (Z.of_nat (task_count s))) (turnpoint_codes fd)) s).
Proof.
  unfold insert_task, mbind, M_bind. cbn [count_distinct].
  rewrite executemany_task_any. reflexivity.
Qed.

(** ** Which tables a computation writes *)

Lemma frame_refl T s : frame T s s.
Proof. by intros t _. Qed.

Lemma frame_trans T s1 s2 s3 : frame T s1 s2 -> frame T s2 s3 -> frame T s1 s3.
Proof. intros H12 H23 t Ht. by rewrite H23, H12. Qed.

Lemma frame_mono T T' s s' : T ⊆ T' -> frame T s s' -> frame T' s s'.
Proof. intros HT H t Ht. apply H. set_solver. Qed.

Lemma readonly_touches {A} T (m : M A) : readonly m -> touches T m.
Proof. intros H s. rewrite H. apply frame_refl. Qed.

Lemma readonly_eq {A} (m : M A) s r s' : readonly m -> m s = (r, s') -> s' = s.
Proof. intros H E. specialize (H s). by rewrite E in H. Qed.

Lemma touches_eq {A} T (m : M A) s r s' : touches T m -> m s = (r, s') -> frame T s s'.
Proof. intros H E. specialize (H s). by rewrite E in H. Qed.

Lemma touches_bind {A B} T (m : M A) (f : A -> M B) :
  touches T m -> (forall x, touches T (f x)) -> touches T (m ≫= f).
Proof.
  intros Hm Hf s. unfold mbind, M_bind.
  specialize (Hm s). destruct (m s) as [[e|x] s'] eqn:?; [done|].
  eapply frame_trans; [apply Hm|apply Hf].
Qed.

Lemma readonly_bind {A B} (m : M A) (f : A -> M B) :
  readonly m -> (forall x, readonly (f x)) -> readonly (m ≫= f).
Proof.
  intros Hm Hf s. unfold mbind, M_bind.
  specialize (Hm s). destruct (m s) as [[e|x] s'] eqn:?; simpl in *; [done|].
  by rewrite Hf.
Qed.

Lemma readonly_ret {A} (x : A) : readonly (mret x).
Proof. done. Qed.

Lemma readonly_raise {A} e : readonly (raise (A:=A) e).
Proof. done. Qed.

Lemma readonly_getitem fd k : readonly (getitem fd k).
Proof. intros s. unfold getitem. by destruct (fd !! k). Qed.

Lemma readonly_select_id t conds : readonly (select_id t conds).
Proof. done. Qed.

Lemma readonly_fetch_id o : readonly (fetch_id o).
Proof. intros s. by destruct o. Qed.

Lemma readonly_str_index h i : readonly (str_index h i).
Proof. intros s. unfold str_index. by destruct (String.get i h). Qed.

Lemma readonly_strptime E v : readonly (strptime E v).
Proof.
  intros s. unfold strptime.
  destruct v; try done. by destruct (parse_flight_date E s0).
Qed.

Lemma readonly_py_or a b : readonly a -> readonly b -> readonly (py_or a b).
Proof.
  intros Ha Hb. unfold py_or. apply readonly_bind; [done|].
  intros x. by destruct (truthy x).
Qed.

Lemma touches_db_insert T t r : t ∈ T -> touches T (db_insert t r).
Proof.
  intros Hin s t' Ht'. unfold db_insert.
  destruct (violates_unique _ _ _); simpl; [done|].
  apply tbl_set_tbl_ne. set_solver.
Qed.

Lemma touches_executemany T t rows : t ∈ T -> touches T (executemany t rows).
Proof.
  intros Hin. induction rows as [|r rows IH]; simpl.
  - apply readonly_touches, readonly_ret.
  - apply touches_bind; [by apply touches_db_insert|]. intros _. apply IH.
Qed.

Lemma touches_fs_log T f g : touches T (modify (fun s => mkSt (st_db s) (f s) (g s))).
Proof. intros s t _. done. Qed.

Lemma touches_try_notfound {A} T (m : M A) : touches T m -> touches T (try_notfound m).
Proof.
  intros H s. specialize (H s). unfold try_notfound.
  by destruct (m s) as [[[] | x] s'].
Qed.

Create HintDb touches.
#[local] Hint Resolve readonly_ret readonly_raise readonly_getitem readonly_select_id
  readonly_fetch_id readonly_str_index readonly_strptime readonly_py_or
  readonly_bind : touches.
#[local] Hint Resolve readonly_touches touches_try_notfound touches_fs_log : touches.
#[local] Hint Extern 1 (touches _ (db_insert _ _)) =>
  apply touches_db_insert; set_solver : touches.
#[local] Hint Extern 1 (touches _ (executemany _ _)) =>
  apply touches_executemany; set_solver : touches.

(** Walk a computation: binds, matches and lets, then the hint base. *)
Ltac solve_touches :=
  repeat first
    [ match goal with |- forall _, _ => intro end
    | progress cbv zeta
    | apply touches_bind
    | apply readonly_bind
    | match goal with
      | |- touches _ (match ?x with _ => _ end) => destruct x
      | |- readonly (match ?x with _ => _ end) => destruct x
      end
    | solve [eauto with touches] ].

Lemma touches_get_or_create_pilot a b c : touches ["pilot"] (get_or_create_pilot a b c).
Proof. unfold get_or_create_pilot. solve_touches. Qed.

Lemma touches_get_or_create_club c : touches ["club"] (get_or_create_club c).
Proof. unfold get_or_create_club. solve_touches. Qed.

Lemma touches_get_or_create_glider_model a b :
  touches ["glider_model"] (get_or_create_glider_model a b).
Proof. unfold get_or_create_glider_model. solve_touches. Qed.

Lemma touches_get_or_create_glider a b : touches ["glider"] (get_or_create_glider a b).
Proof. unfold get_or_create_glider. solve_touches. Qed.

Lemma touches_requests_get_content E url T : touches T (requests_get_content E url).
Proof.
  unfold requests_get_content, log_request. solve_touches.
Qed.

Lemma touches_archive E root fd : touches ["trace"] (download_and_archive_trace E root fd).
Proof.
  unfold download_and_archive_trace, archive_path_of, write_file.
  solve_touches. apply touches_try_notfound, touches_requests_get_content.
Qed.

(** ** Running the ingestor on its success path *)

Lemma db_insert_ok t r s s' :
  db_insert t r s = (inr tt, s') ->
  violates_unique t (tbl s t) (with_rowid t (tbl s t) r) = false /\
  s' = set_tbl t (tbl s t ++ [with_rowid t (tbl s t) r]) s.
Proof.
  unfold db_insert. destruct (violates_unique _ _ _); intros H; by inversion H.
Qed.

Lemma getitem_ok fd k s v s' : getitem fd k s = (inr v, s') -> fd !! k = Some v.
Proof. unfold getitem. destruct (fd !! k); intros H; by inversion H. Qed.

Lemma select_id_result t conds s o s' :
  select_id t conds s = (inr o, s') ->
  o = option_map (fun r => col r "id") (find_row conds (tbl s t)) /\ s' = s.
Proof. intros H. by inversion H. Qed.

(** Split a hypothesis [H : c s = (inr _, _)] along the binds of [c]. *)
Ltac run_hyp H :=
  repeat (cbv beta iota zeta in H;
    match type of H with
    | context [match ?m with _ => _ end] =>
        lazymatch m with
        | match _ with _ => _ end => fail
        | _ =>
            let E := fresh "E" in
            lazymatch type of m with
            | ((_ + _) * st)%type => destruct m as [[?e | ?x] ?s] eqn:E
            | _ => destruct m eqn:E
            end;
            try (cbv beta iota in H; discriminate H)
        end
    end).

(** State equalities given by the read-only steps. *)
Ltac readonly_steps :=
  repeat match goal with
  | E : ?m ?sa = (_, ?sb) |- _ =>
      assert (sb = sa) by
        (eapply (readonly_eq m sa _ sb); [eauto with touches | exact E]);
      subst sb
  end.

Lemma insert_bga_flight_ok E root fd sc s s' :
  insert_bga_flight E root fd sc s = (inr tt, s') ->
  exists v s1 tr s2 tk s3 r,
    fd !! "FlightID" = Some v /\
    find_row [("ladder_id", v)] (tbl s "flight") = None /\
    frame ["pilot"; "club"; "glider_model"; "glider"] s s1 /\
    download_and_archive_trace E root fd s1 = (inr tr, s2) /\
    insert_task fd s2 = (inr tk, s3) /\
    db_insert "flight" r s3 = (inr tt, s') /\
    col r "trace" = default VNull tr /\ col r "task" = tk /\ col r "ladder_id" = v.
Proof.
  intros H. unfold insert_bga_flight, mbind, M_bind, raise in H.
  run_hyp H. readonly_steps. subst.
  apply select_id_result in E1 as [E1 _].
  destruct (find_row _ (tbl s "flight")) eqn:Hfind; [discriminate E1|].
  eexists _, _, _, _, _, _, _. split; [by eapply getitem_ok|].
  split; [done|]. split.
  { apply (touches_eq _ _ _ _ _ (touches_get_or_create_pilot _ _ _)) in E6.
    apply (touches_eq _ _ _ _ _ (touches_get_or_create_club _)) in E8.
    apply (touches_eq _ _ _ _ _ (touches_get_or_create_glider_model _ _)) in E11.
    apply (touches_eq _ _ _ _ _ (touches_get_or_create_glider _ _)) in E13.
    eapply frame_trans; [eapply frame_mono, E6; set_solver|].
    eapply frame_trans; [eapply frame_mono, E8; set_solver|].
    eapply frame_trans; [eapply frame_mono, E11; set_solver|].
    eapply frame_mono, E13; set_solver. }
  split; [exact E14|]. split; [exact E15|]. split; [exact H|].
  split_and!; reflexivity.
Qed.

Lemma col_with_rowid t rows r c : c <> "id" -> col (with_rowid t rows r) c = col r c.
Proof.
  intros Hc. unfold with_rowid.
  destruct (has_rowid t && _); [|done]. unfold col; simpl.
  by rewrite bool_decide_false.
Qed.

Lemma db_insert_last t r s s' :
  db_insert t r s = (inr tt, s') ->
  exists r', tbl s' t = tbl s t ++ [r'] /\ r' = with_rowid t (tbl s t) r /\
             (forall t', t <> t' -> tbl s' t' = tbl s t').
Proof.
  intros H. apply db_insert_ok in H as [_ ->]. eexists. split; [|split].
  - apply tbl_set_tbl_eq.
  - done.
  - intros. by apply tbl_set_tbl_ne.
Qed.

(** ** Task ids *)

Lemma task_count_tbl s s' : tbl s' "task" = tbl s "task" -> task_count s' = task_count s.
Proof. intros H. unfold task_count. by rewrite H. Qed.

Lemma elem_of_task_rows n codes r :
  r ∈ imap (task_row n) codes -> col r "id" = VInt n.
Proof.
  intros Hr. apply elem_of_lookup_imap_1 in Hr as (i & c & -> & _). reflexivity.
Qed.

Lemma remove_dups_app_new (L L' : list val) x :
  x ∉ L -> L' <> [] -> (forall y, y ∈ L' -> y = x) ->
  length (remove_dups (L ++ L')) = S (length (remove_dups L)).
Proof.
  intros Hx Hne Hall.
  assert (Hperm : remove_dups (L ++ L') ≡ₚ x :: remove_dups L).
  { apply NoDup_Permutation.
    - apply NoDup_remove_dups.
    - constructor; [by rewrite elem_of_remove_dups|apply NoDup_remove_dups].
    - intros y. rewrite elem_of_remove_dups, elem_of_app, elem_of_cons,
        elem_of_remove_dups.
      split; [intros [?|?%Hall]; auto|].
      intros [->|?]; [|auto]. right. destruct L' as [|y L']; [done|].
      rewrite <- (Hall y); [left|]; set_solver. }
  by rewrite Hperm.
Qed.

Lemma insert_task_wf fd s : task_ids_wf s -> task_ids_wf (insert_task fd s).2.
Proof.
  intros Hwf. rewrite insert_task_run; simpl.
  set (n := task_count s).
  destruct (imap (task_row (Z.of_nat n)) (turnpoint_codes fd)) as [|r0 rows'] eqn:Hrows;
    [done|].
  assert (Hid : forall r, r ∈ r0 :: rows' -> col r "id" = VInt (Z.of_nat n)).
  { intros r Hr. rewrite <- Hrows in Hr. by apply elem_of_task_rows in Hr. }
  assert (Hcount : task_count (append_rows "task" (r0 :: rows') s) = S n).
  { unfold task_count at 1. rewrite tbl_append_rows_eq, map_app, filter_app.
    apply (remove_dups_app_new _ _ (VInt (Z.of_nat n))).
    - intros Hin. apply list_elem_of_filter in Hin as [_ Hin].
      apply list_elem_of_fmap in Hin as (r & Hr & Hin).
      destruct (Hwf r Hin) as (z & Hz & Hlt). rewrite Hz in Hr.
      injection Hr as Hr. subst n. lia.
    - intros Hnil.
      assert (Hin : VInt (Z.of_nat n) ∈
                      filter (fun v => v <> VNull) (map (fun r => col r "id") (r0 :: rows'))).
      { apply list_elem_of_filter. split; [done|].
        apply list_elem_of_fmap. exists r0. split; [by rewrite Hid; [|left]|left]. }
      rewrite Hnil in Hin. by apply not_elem_of_nil in Hin.
    - intros y Hy. apply list_elem_of_filter in Hy as [_ Hy].
      apply list_elem_of_fmap in Hy as (r & -> & Hr). by apply Hid. }
  intros r Hr. rewrite Hcount.
  rewrite tbl_append_rows_eq in Hr. apply elem_of_app in Hr as [Hr|Hr].
  - destruct (Hwf r Hr) as (z & Hz & Hlt). exists z. split; [done|]. subst n. lia.
  - exists (Z.of_nat n). split; [by apply Hid|]. lia.
Qed.

(** Claim C4.  The turnpoint sequence is the start point code if present
    and non-empty, then the codes of [TP1], [TP2], ... up to (excluding)
    the first missing or empty one, then the finish point code if present
    and non-empty; code number [i] of the sequence is written to the task
    table with position [i], counted from 0. *)
Theorem insert_task_turnpoint_sequence (fd : flight_rec) (s : st) :
  exists k,
    (forall j, 1 <= j <= k -> present_code fd (tp_key j) <> []) /\
    present_code fd (tp_key (S k)) = [] /\
    turnpoint_codes fd =
      present_code fd "StartPoint" ++
      concat (map (fun j => present_code fd (tp_key j)) (seq 1 k)) ++
      present_code fd "FinishPoint" /\
    exists s', insert_task fd s = (inr (VInt (Z.of_nat (task_count s))), s') /\
      tbl s' "task" =
        tbl s "task" ++ imap (task_row (Z.of_nat (task_count s))) (turnpoint_codes fd).
Proof.
  destruct (turnpoint_codes_spec fd) as (k & Hall & Hend & Heq).
  exists k. split_and!; [done|done|done|].
  eexists. split; [apply insert_task_run|]. apply tbl_append_rows_eq.
Qed.

(** ** The new task id *)

(** Claim C2, amended.  The Task Decomposer allocates as new Task id the
    current count of distinct (non-NULL) Task ids, [count(distinct task.id)],
    with no [+ 1]: the first task gets id 0. *)
Theorem insert_task_id_is_count (fd : flight_rec) (s : st) :
  (insert_task fd s).1 = inr (VInt (Z.of_nat (task_count s))).
Proof. by rewrite insert_task_run. Qed.

(** Claim C2, counterexample.  On an empty task table the count of distinct
    ids is 0 and the new id is 0, not 0 + 1. *)
Lemma insert_task_id_not_count_plus_one :
  task_count s_empty = 0%nat /\
  (insert_task ∅ s_empty).1 = inr (VInt 0) /\
  (insert_task ∅ s_empty).1 <> inr (VInt (Z.of_nat (task_count s_empty) + 1)).
Proof. split_and!; [reflexivity|reflexivity|]. vm_compute. congruence. Qed.

Lemma turnpoint_codes_empty fd :
  present_code fd "StartPoint" = [] -> present_code fd (tp_key 1) = [] ->
  present_code fd "FinishPoint" = [] -> turnpoint_codes fd = [].
Proof.
  intros Hs H1 Hf.
  destruct (turnpoint_codes_spec fd) as (k & Hall & _ & ->).
  destruct k as [|k]; [by rewrite Hs, Hf|].
  exfalso. apply (Hall 1); [lia|done].
Qed.

(** Claim C10.  For a record whose StartPoint, TP1 and FinishPoint are all
    absent or empty, a successful ingestion writes no task row, and the new
    Flight row references the task id [count(distinct task.id)], which no
    row of the task table carries (in a state where the task ids are
    [0 .. count-1], as [insert_task] keeps them: [insert_task_wf]). *)
Theorem insert_bga_flight_empty_task E root fd sc s s' :
  present_code fd "StartPoint" = [] -> present_code fd (tp_key 1) = [] ->
  present_code fd "FinishPoint" = [] ->
  task_ids_wf s ->
  insert_bga_flight E root fd sc s = (inr tt, s') ->
  tbl s' "task" = tbl s "task" /\
  exists r, last (tbl s' "flight") = Some r /\
    col r "task" = VInt (Z.of_nat (task_count s)) /\
    forall tr, tr ∈ tbl s' "task" -> col tr "id" <> VInt (Z.of_nat (task_count s)).
Proof.
  intros Hs H1 Hf Hwf Hrun.
  apply insert_bga_flight_ok in Hrun
    as (v & s1 & tr & s2 & tk & s3 & r & _ & _ & Hfr & Harch & Htask & Hins & _ & Hrt & _).
  assert (Ht1 : tbl s1 "task" = tbl s "task") by (apply Hfr; set_solver).
  assert (Ht2 : tbl s2 "task" = tbl s1 "task").
  { apply (touches_eq _ _ _ _ _ (touches_archive E root fd)) in Harch.
    apply Harch. set_solver. }
  rewrite insert_task_run, turnpoint_codes_empty in Htask by done.
  injection Htask as <- <-. simpl in Hins.
  apply db_insert_last in Hins as (r' & Hfl & -> & Hother).
  assert (Hts : tbl s' "task" = tbl s "task").
  { rewrite Hother by done. by rewrite Ht2. }
  assert (Hcnt : task_count s2 = task_count s) by (apply task_count_tbl; congruence).
  split; [done|]. exists (with_rowid "flight" (tbl s2 "flight") r).
  split; [by rewrite Hfl, last_snoc|].
  split; [rewrite col_with_rowid by done; by rewrite Hrt, Hcnt|].
  intros row Hrow Hid. rewrite Hts in Hrow.
  destruct (Hwf row Hrow) as (z & Hz & Hlt). rewrite Hz in Hid.
  injection Hid as ->. lia.
Qed.

Lemma insert_bga_flight_empty_task_witness :
  let E := sample_env (Some sample_igc) [] in
  let fd := sample_flight 1001 [] in
  present_code fd "StartPoint" = [] /\ present_code fd (tp_key 1) = [] /\
  present_code fd "FinishPoint" = [] /\ task_ids_wf s_empty /\
  insert_bga_flight E ["traces"] fd (VStr "now") s_empty =
    (inr tt, (insert_bga_flight E ["traces"] fd (VStr "now") s_empty).2) /\
  (tbl (insert_bga_flight E ["traces"] fd (VStr "now") s_empty).2 "task" = tbl s_empty "task" /\
   exists r, last (tbl (insert_bga_flight E ["traces"] fd (VStr "now") s_empty).2 "flight") = Some r /\
     col r "task" = VInt (Z.of_nat (task_count s_empty)) /\
     forall tr, tr ∈ tbl (insert_bga_flight E ["traces"] fd (VStr "now") s_empty).2 "task" ->
       col tr "id" <> VInt (Z.of_nat (task_count s_empty))).
Proof.
  intros E fd.
  assert (Hwf : task_ids_wf s_empty) by (intros r Hr; apply not_elem_of_nil in Hr; done).
  assert (Hrun : insert_bga_flight E ["traces"] fd (VStr "now") s_empty =
    (inr tt, (insert_bga_flight E ["traces"] fd (VStr "now") s_empty).2))
    by (vm_compute; reflexivity).
  refine (conj _ (conj _ (conj _ (conj Hwf (conj Hrun _)))));
    [vm_compute; reflexivity ..|].
  apply (insert_bga_flight_empty_task E ["traces"] fd (VStr "now") s_empty);
    [vm_compute; reflexivity ..|exact Hwf|exact Hrun].
Defined.

(** ** Exceptions a computation never raises *)

Lemma avoids_eq {A} e (m : M A) s s' : avoids e m -> m s = (inl e, s') -> False.
Proof. intros H E. specialize (H s). by rewrite E in H. Qed.

Lemma avoids_ret {A} e (x : A) : avoids e (mret x).
Proof. by intros s. Qed.

Lemma avoids_raise {A} e e' : e' <> e -> avoids e (raise (A:=A) e').
Proof. intros Hne s. simpl. congruence. Qed.

Lemma avoids_bind {A B} e (m : M A) (f : A -> M B) :
  avoids e m -> (forall x, avoids e (f x)) -> avoids e (m ≫= f).
Proof.
  intros Hm Hf s. unfold mbind, M_bind.
  specialize (Hm s). destruct (m s) as [[e0|x] s0] eqn:?; [simpl in *; congruence|]. apply Hf.
Qed.

Lemma avoids_getitem e fd k : (forall k', e <> KeyError k') -> avoids e (getitem fd k).
Proof. intros He s. unfold getitem. destruct (fd !! k); simpl; congruence. Qed.

Lemma avoids_select_id e t conds : avoids e (select_id t conds).
Proof. by intros s. Qed.

Lemma avoids_count_distinct e t c : avoids e (count_distinct t c).
Proof. by intros s. Qed.

Lemma avoids_fetch_id e o : e <> TypeError -> avoids e (fetch_id o).
Proof. intros He s. destruct o; simpl; congruence. Qed.

Lemma avoids_db_insert e t r : e <> IntegrityError -> avoids e (db_insert t r).
Proof. intros He s. unfold db_insert. destruct (violates_unique _ _ _); simpl; congruence. Qed.

Lemma avoids_executemany e t rows : e <> IntegrityError -> avoids e (executemany t rows).
Proof.
  intros He. induction rows; simpl; [apply avoids_ret|].
  apply avoids_bind; [by apply avoids_db_insert|done].
Qed.

Lemma avoids_modify e f : avoids e (modify f).
Proof. by intros s. Qed.

Lemma avoids_str_index e h i : e <> IndexError -> avoids e (str_index h i).
Proof. intros He s. unfold str_index. destruct (String.get i h); simpl; congruence. Qed.

Lemma avoids_strptime e E v : e <> ValueError -> e <> TypeError -> avoids e (strptime E v).
Proof.
  intros H1 H2 s. unfold strptime.
  destruct v; simpl; try congruence. destruct (parse_flight_date E s0); simpl; congruence.
Qed.

Lemma avoids_py_or e a b : avoids e a -> avoids e b -> avoids e (py_or a b).
Proof.
  intros Ha Hb. unfold py_or. apply avoids_bind; [done|].
  intros x. destruct (truthy x); [apply avoids_ret|done].
Qed.

Lemma avoids_try_notfound {A} (m : M A) : avoids NotFound (try_notfound m).
Proof. intros s. unfold try_notfound. by destruct (m s) as [[[] | x] s']. Qed.

Lemma avoids_try_notfound_other {A} e (m : M A) : avoids e m -> avoids e (try_notfound m).
Proof.
  intros H s. specialize (H s). unfold try_notfound.
  destruct (m s) as [[[] | x] s']; simpl in *; congruence.
Qed.

Lemma avoids_requests_get_content E url e : e <> NotFound -> avoids e (requests_get_content E url).
Proof.
  intros He s. unfold requests_get_content, log_request, mbind, M_bind, modify.
  destruct (http_content E url); simpl; congruence.
Qed.

Create HintDb avoids.
#[local] Hint Resolve avoids_ret avoids_select_id avoids_modify avoids_py_or
  avoids_try_notfound avoids_count_distinct : avoids.
#[local] Hint Extern 1 (avoids _ (raise _)) => apply avoids_raise; discriminate : avoids.
#[local] Hint Extern 1 (avoids _ (getitem _ _)) =>
  apply avoids_getitem; intros ?; discriminate : avoids.
#[local] Hint Extern 1 (avoids _ (fetch_id _)) => apply avoids_fetch_id; discriminate : avoids.
#[local] Hint Extern 1 (avoids _ (db_insert _ _)) => apply avoids_db_insert; discriminate : avoids.
#[local] Hint Extern 1 (avoids _ (executemany _ _)) =>
  apply avoids_executemany; discriminate : avoids.
#[local] Hint Extern 1 (avoids _ (str_index _ _)) => apply avoids_str_index; discriminate : avoids.
#[local] Hint Extern 1 (avoids _ (strptime _ _)) =>
  apply avoids_strptime; discriminate : avoids.
#[local] Hint Extern 1 (avoids _ (try_notfound (requests_get_content _ _))) =>
  apply avoids_try_notfound_other, avoids_requests_get_content; discriminate : avoids.

Ltac solve_avoids :=
  repeat first
    [ match goal with |- forall _, _ => intro end
    | progress cbv zeta
    | apply avoids_bind
    | match goal with |- avoids _ (match ?x with _ => _ end) => destruct x end
    | solve [eauto with avoids] ].

Lemma avoids_get_or_create e a b c :
  e = ExistingFlight \/ e = NotFound ->
  avoids e (get_or_create_pilot a b c) /\ avoids e (get_or_create_club a) /\
  avoids e (get_or_create_glider_model a b) /\ avoids e (get_or_create_glider a b).
Proof.
  intros [-> | ->];
    unfold get_or_create_pilot, get_or_create_club, get_or_create_glider_model,
      get_or_create_glider; split_and!; solve_avoids.
Qed.

Lemma avoids_archive E root fd e :
  e = ExistingFlight \/ e = NotFound -> avoids e (download_and_archive_trace E root fd).
Proof.
  unfold download_and_archive_trace, archive_path_of, write_file.
  intros [-> | ->]; solve_avoids.
Qed.

Lemma avoids_insert_task e fd : e = ExistingFlight \/ e = NotFound -> avoids e (insert_task fd).
Proof. unfold insert_task. intros [-> | ->]; solve_avoids. Qed.

#[local] Hint Extern 1 (avoids _ (get_or_create_pilot _ _ _)) =>
  apply (avoids_get_or_create _ _ _ _); auto : avoids.
#[local] Hint Extern 1 (avoids _ (get_or_create_club ?a)) =>
  apply (avoids_get_or_create _ a a a); auto : avoids.
#[local] Hint Extern 1 (avoids _ (get_or_create_glider_model ?a ?b)) =>
  apply (avoids_get_or_create _ a b a); auto : avoids.
#[local] Hint Extern 1 (avoids _ (get_or_create_glider ?a ?b)) =>
  apply (avoids_get_or_create _ a b a); auto : avoids.
#[local] Hint Extern 1 (avoids _ (download_and_archive_trace _ _ _)) =>
  apply avoids_archive; auto : avoids.
#[local] Hint Extern 1 (avoids _ (insert_task _)) => apply avoids_insert_task; auto : avoids.

(** ** Ingesting a flight that is already stored *)

Lemma bind_inr {A B} (m : M A) (f : A -> M B) s x s' :
  m s = (inr x, s') -> (m ≫= f) s = f x s'.
Proof. intros E. unfold mbind, M_bind. by rewrite E. Qed.

Lemma getitem_some fd k v s : fd !! k = Some v -> getitem fd k s = (inr v, s).
Proof. intros H. unfold getitem. by rewrite H. Qed.

Lemma sql_eq_true a b : sql_eq a b = true <-> a = b /\ b <> VNull.
Proof.
  unfold sql_eq. destruct a, b; rewrite ?bool_decide_eq_true; naive_solver.
Qed.

Lemma row_matches_single c v r : row_matches [(c, v)] r = true <-> col r c = v /\ v <> VNull.
Proof. unfold row_matches; simpl. rewrite andb_true_r. apply sql_eq_true. Qed.

Lemma find_row_none conds rows :
  find_row conds rows = None -> forall r, r ∈ rows -> row_matches conds r = false.
Proof.
  induction rows as [|r0 rows IH]; simpl; intros H r Hr; [by apply not_elem_of_nil in Hr|].
  destruct (row_matches conds r0) eqn:Hm; [done|].
  apply elem_of_cons in Hr as [->|Hr]; [done|]. by apply IH.
Qed.

Lemma find_row_some conds rows r :
  find_row conds rows = Some r -> r ∈ rows /\ row_matches conds r = true.
Proof.
  induction rows as [|r0 rows IH]; simpl; [done|].
  destruct (row_matches conds r0) eqn:Hm.
  - intros [= <-]. split; [left|done].
  - intros H. destruct (IH H). split; [by right|done].
Qed.

Lemma find_row_elem conds rows r :
  r ∈ rows -> row_matches conds r = true -> exists r', find_row conds rows = Some r'.
Proof.
  intros Hr Hm. destruct (find_row conds rows) as [r'|] eqn:Hf; [by exists r'|].
  rewrite (find_row_none _ _ Hf r Hr) in Hm. done.
Qed.

Lemma filter_col_le1 rows c v :
  NoDup (filter (fun x => x <> VNull) (map (fun r => col r c) rows)) -> v <> VNull ->
  length (filter (fun r => col r c = v) rows) <= 1.
Proof.
  intros Hnd Hv. induction rows as [|r rows IH]; simpl; [lia|].
  cbn [map] in Hnd. rewrite (filter_cons (fun x => x <> VNull)) in Hnd.
  rewrite filter_cons.
  destruct (decide (col r c = v)) as [Hrv|Hrv].
  - rewrite decide_True in Hnd by congruence.
    apply NoDup_cons in Hnd as [Hnot _]. simpl.
    assert (Hnil : filter (fun r => col r c = v) rows = []); [|rewrite Hnil; simpl; lia].
    destruct (filter (fun r => col r c = v) rows) as [|r' l] eqn:Hf; [done|exfalso].
    assert (Hr' : r' ∈ filter (fun r => col r c = v) rows) by (rewrite Hf; left).
    apply list_elem_of_filter in Hr' as [Hr'v Hr'].
    apply Hnot. apply list_elem_of_filter. split; [congruence|].
    apply list_elem_of_In, in_map_iff. exists r'. split; [congruence|by apply list_elem_of_In].
  - apply IH. destruct (decide (col r c <> VNull)); [|done].
    by apply NoDup_cons in Hnd as [_ ?].
Qed.

Lemma filter_col_ge1 rows c v r :
  r ∈ rows -> col r c = v -> 1 <= length (filter (fun r => col r c = v) rows).
Proof.
  intros Hr Hv. destruct (filter (fun r => col r c = v) rows) eqn:Hf; simpl; [|lia].
  assert (Hin : r ∈ filter (fun r => col r c = v) rows) by (by apply list_elem_of_filter).
  rewrite Hf in Hin. by apply not_elem_of_nil in Hin.
Qed.

Lemma readonly_count_distinct t c : readonly (count_distinct t c).
Proof. done. Qed.

Lemma touches_insert_task fd : touches ["task"] (insert_task fd).
Proof.
  unfold insert_task. apply touches_bind.
  - apply readonly_touches, readonly_count_distinct.
  - intros n. cbv zeta. apply touches_bind; [apply touches_executemany; set_solver|].
    intros _. apply readonly_touches, readonly_ret.
Qed.

Lemma insert_bga_flight_found E root fd sc s v r0 :
  fd !! "FlightID" = Some v ->
  find_row [("ladder_id", v)] (tbl s "flight") = Some r0 ->
  insert_bga_flight E root fd sc s = (inl ExistingFlight, s).
Proof.
  intros Hv Hr0. unfold insert_bga_flight. cbv zeta.
  rewrite (bind_inr _ _ _ _ _ (getitem_some _ _ _ s Hv)).
  rewrite (bind_inr _ _ s (Some (col r0 "id")) s); [reflexivity|].
  unfold select_id. by rewrite Hr0.
Qed.

(** The run of a first ingestion ending in [ExistingFlight]: the check. *)
Lemma insert_bga_flight_existing_inv E root fd sc s v s1 :
  fd !! "FlightID" = Some v ->
  insert_bga_flight E root fd sc s = (inl ExistingFlight, s1) ->
  exists r0, find_row [("ladder_id", v)] (tbl s "flight") = Some r0 /\ s1 = s.
Proof.
  intros Hv H.
  destruct (find_row [("ladder_id", v)] (tbl s "flight")) as [r0|] eqn:Hf.
  - exists r0. split; [done|].
    rewrite (insert_bga_flight_found _ _ _ _ _ _ r0 Hv Hf) in H. congruence.
  - exfalso. unfold insert_bga_flight in H. cbv zeta in H.
    rewrite (bind_inr _ _ _ _ _ (getitem_some _ _ _ s Hv)) in H.
    rewrite (bind_inr _ _ s None s) in H; [|unfold select_id; by rewrite Hf].
    eapply (avoids_eq ExistingFlight _ s s1); [|exact H]. solve_avoids.
Qed.

Lemma insert_bga_flight_appends E root fd sc s s' :
  insert_bga_flight E root fd sc s = (inr tt, s') ->
  exists v r', fd !! "FlightID" = Some v /\
    find_row [("ladder_id", v)] (tbl s "flight") = None /\
    tbl s' "flight" = tbl s "flight" ++ [r'] /\ col r' "ladder_id" = v.
Proof.
  intros H.
  apply insert_bga_flight_ok in H
    as (v & s1 & tr & s2 & tk & s3 & r & Hv & Hf & Hfr1 & Ha & Ht & Hi & Htr & Htk & Hlv).
  apply db_insert_last in Hi as (r' & Hs' & -> & _).
  assert (Hs3 : tbl s3 "flight" = tbl s "flight").
  { apply (touches_eq _ _ _ _ _ (touches_insert_task fd)) in Ht.
    apply (touches_eq _ _ _ _ _ (touches_archive E root fd)) in Ha.
    rewrite Ht, Ha, Hfr1; [done|set_solver..]. }
  exists v, (with_rowid "flight" (tbl s3 "flight") r).
  rewrite Hs', Hs3. split_and!; try done. by rewrite col_with_rowid.
Qed.

(** Claim C1: ingesting a flight is idempotent per BGA flight id [v].  If a
    stored flight already carries ladder id [v], [insert_bga_flight] raises
    [ExistingFlight] and leaves the state as it was; and when stored ladder ids
    are distinct, after a first attempt that stored the flight or hit
    [ExistingFlight], a second attempt raises [ExistingFlight], changes
    nothing, and exactly one flight row carries ladder id [v]. *)
Theorem insert_bga_flight_idempotent E root fd v sc1 sc2 s :
  fd !! "FlightID" = Some v -> v <> VNull ->
  ((exists r, r ∈ tbl s "flight" /\ col r "ladder_id" = v) ->
     insert_bga_flight E root fd sc1 s = (inl ExistingFlight, s)) /\
  (NoDup (filter (fun x => x <> VNull) (map (fun r => col r "ladder_id") (tbl s "flight"))) ->
   forall r1 s1, insert_bga_flight E root fd sc1 s = (r1, s1) ->
   r1 = inr tt \/ r1 = inl ExistingFlight ->
   insert_bga_flight E root fd sc2 s1 = (inl ExistingFlight, s1) /\
   length (filter (fun r => col r "ladder_id" = v) (tbl s1 "flight")) = 1).
Proof.
  intros Hv Hvn. split.
  - intros (r & Hr & Hrv).
    destruct (find_row_elem [("ladder_id", v)] _ r Hr) as [r0 Hr0];
      [by apply row_matches_single|].
    exact (insert_bga_flight_found _ _ _ _ _ _ r0 Hv Hr0).
  - intros Hnd r1 s1 Hrun [->| ->].
    + destruct (insert_bga_flight_appends _ _ _ _ _ _ Hrun) as (v' & r' & Hv' & Hf & Hs1 & Hr').
      rewrite Hv in Hv'. injection Hv' as <-.
      assert (Hm : row_matches [("ladder_id", v)] r' = true) by (by apply row_matches_single).
      split.
      * destruct (find_row_elem [("ladder_id", v)] (tbl s1 "flight") r') as [r0 Hr0];
          [rewrite Hs1; set_solver|done|].
        exact (insert_bga_flight_found _ _ _ _ _ _ r0 Hv Hr0).
      * assert (Hnil : filter (fun r => col r "ladder_id" = v) (tbl s "flight") = []).
        { destruct (filter (fun r => col r "ladder_id" = v) (tbl s "flight")) as [|r0 l] eqn:E0;
            [done|exfalso].
          assert (Hr0 : r0 ∈ filter (fun r => col r "ladder_id" = v) (tbl s "flight"))
            by (rewrite E0; left).
          apply list_elem_of_filter in Hr0 as [Hc Hin].
          pose proof (find_row_none _ _ Hf r0 Hin) as Hfalse.
          assert (row_matches [("ladder_id", v)] r0 = true) by (by apply row_matches_single).
          congruence. }
        rewrite Hs1, filter_app, Hnil, filter_cons_True by done.
        by rewrite filter_nil.
    + destruct (insert_bga_flight_existing_inv _ _ _ _ _ _ _ Hv Hrun) as (r0 & Hr0 & ->).
      split; [exact (insert_bga_flight_found _ _ _ _ _ _ r0 Hv Hr0)|].
      apply find_row_some in Hr0 as [Hin Hm]. apply row_matches_single in Hm as [Hc _].
      pose proof (filter_col_le1 _ _ _ Hnd Hvn). pose proof (filter_col_ge1 _ _ _ _ Hin Hc).
      lia.
Qed.

Lemma insert_bga_flight_idempotent_witness :
  let E := sample_env (Some sample_igc) [] in
  let fd := sample_flight 1001 [] in
  let s1 := (insert_bga_flight E ["traces"] fd (VStr "t1") s_empty).2 in
  fd !! "FlightID" = Some (VInt 1001) /\ VInt 1001 <> VNull /\
  insert_bga_flight E ["traces"] fd (VStr "t1") s_empty = (inr tt, s1) /\
  insert_bga_flight E ["traces"] fd (VStr "t2") s1 = (inl ExistingFlight, s1) /\
  length (filter (fun r => col r "ladder_id" = VInt 1001) (tbl s1 "flight")) = 1.
Proof.
  intros E fd s1.
  assert (Hv : fd !! "FlightID" = Some (VInt 1001)) by (vm_compute; reflexivity).
  assert (Hn : VInt 1001 <> VNull) by discriminate.
  assert (Hrun : insert_bga_flight E ["traces"] fd (VStr "t1") s_empty = (inr tt, s1))
    by (vm_compute; reflexivity).
  assert (Hnd : NoDup (filter (fun x => x <> VNull)
                  (map (fun r => col r "ladder_id") (tbl s_empty "flight"))))
    by (vm_compute; constructor).
  destruct (proj2 (insert_bga_flight_idempotent E ["traces"] fd (VInt 1001) (VStr "t1")
                     (VStr "t2") s_empty Hv Hn) Hnd (inr tt) s1 Hrun (or_introl eq_refl))
    as [H2 H3].
  exact (conj Hv (conj Hn (conj Hrun (conj H2 H3)))).
Defined.

(** ** A trace download that is not found *)

Lemma archive_notfound E root fd fid lf s :
  fd !! "FlightID" = Some fid -> fd !! "LoggerFile" = Some lf ->
  http_content E (igc_url fid) = None ->
  download_and_archive_trace E root fd s =
    (inr None, mkSt (st_db s) (st_fs s) (st_log s ++ [(igc_url fid, [])])).
Proof.
  intros Hfid Hlf Hnf. unfold download_and_archive_trace. cbv zeta.
  rewrite (bind_inr _ _ _ _ _ (getitem_some _ _ _ s Hfid)).
  rewrite (bind_inr _ _ _ _ _ (getitem_some _ _ _ s Hlf)).
  unfold mbind at 1, M_bind, try_notfound, requests_get_content, log_request, modify.
  unfold mbind, M_bind. fold (igc_url fid). rewrite Hnf. reflexivity.
Qed.

Lemma avoids_insert_bga_flight_notfound E root fd sc :
  avoids NotFound (insert_bga_flight E root fd sc).
Proof. unfold insert_bga_flight. solve_avoids. Qed.

(** Claim C8: when the trace download of a flight signals [NotFound], the
    trace archiver returns [None] (only the request is recorded), ingestion
    never fails with [NotFound], and a successful ingestion stores the flight
    row with a NULL trace reference. *)
Theorem insert_bga_flight_trace_notfound E root fd fid lf sc s :
  fd !! "FlightID" = Some fid -> fd !! "LoggerFile" = Some lf ->
  http_content E (igc_url fid) = None ->
  download_and_archive_trace E root fd s =
    (inr None, mkSt (st_db s) (st_fs s) (st_log s ++ [(igc_url fid, [])])) /\
  avoids NotFound (insert_bga_flight E root fd sc) /\
  (forall s0 s', insert_bga_flight E root fd sc s0 = (inr tt, s') ->
     exists r, last (tbl s' "flight") = Some r /\
       col r "trace" = VNull /\ col r "ladder_id" = fid).
Proof.
  intros Hfid Hlf Hnf. split; [by apply (archive_notfound _ _ _ _ lf)|].
  split; [apply avoids_insert_bga_flight_notfound|].
  intros s0 s' H.
  apply insert_bga_flight_ok in H
    as (v & s1 & tr & s2 & tk & s3 & r & Hv & Hf & Hfr1 & Ha & Ht & Hi & Htr & Htk & Hlv).
  rewrite (archive_notfound _ _ _ _ _ s1 Hfid Hlf Hnf) in Ha.
  injection Ha as <- _. rewrite Hfid in Hv. injection Hv as <-.
  apply db_insert_last in Hi as (r' & Hs' & -> & _).
  exists (with_rowid "flight" (tbl s3 "flight") r). rewrite Hs', last_snoc.
  split; [done|]. rewrite !col_with_rowid by done. done.
Qed.

Lemma insert_bga_flight_trace_notfound_witness :
  let E := sample_env None [] in
  let fd := sample_flight 1001 [] in
  let s' := (insert_bga_flight E ["traces"] fd (VStr "now") s_empty).2 in
  fd !! "FlightID" = Some (VInt 1001) /\ fd !! "LoggerFile" = Some (VStr "flight.igc") /\
  http_content E (igc_url (VInt 1001)) = None /\
  download_and_archive_trace E ["traces"] fd s_empty =
    (inr None, mkSt ∅ ∅ [(igc_url (VInt 1001), [])]) /\
  insert_bga_flight E ["traces"] fd (VStr "now") s_empty = (inr tt, s') /\
  exists r, last (tbl s' "flight") = Some r /\ col r "trace" = VNull /\
    col r "ladder_id" = VInt 1001.
Proof.
  intros E fd s'.
  assert (H1 : fd !! "FlightID" = Some (VInt 1001)) by (vm_compute; reflexivity).
  assert (H2 : fd !! "LoggerFile" = Some (VStr "flight.igc")) by (vm_compute; reflexivity).
  assert (H3 : http_content E (igc_url (VInt 1001)) = None) by reflexivity.
  assert (Hrun : insert_bga_flight E ["traces"] fd (VStr "now") s_empty = (inr tt, s'))
    by (vm_compute; reflexivity).
  destruct (insert_bga_flight_trace_notfound E ["traces"] fd (VInt 1001) (VStr "flight.igc")
              (VStr "now") s_empty H1 H2 H3) as (Ha & _ & Hl).
  exact (conj H1 (conj H2 (conj H3 (conj Ha (conj Hrun (Hl s_empty s' Hrun)))))).
Defined.

(** ** Trace archiving *)

Lemma next_rowid_gt rows r0 z :
  r0 ∈ rows -> col r0 "id" = VInt z -> (z < next_rowid rows)%Z.
Proof.
  unfold next_rowid. induction rows as [|r rows IH]; intros Hin Hz.
  - by apply not_elem_of_nil in Hin.
  - simpl. apply elem_of_cons in Hin as [->|Hin].
    + rewrite Hz. lia.
    + specialize (IH Hin Hz). destruct (col r "id"); lia.
Qed.

Lemma violates_unique_false t rows r :
  (forall c r0, c ∈ unique_cols t -> r0 ∈ rows -> sql_eq (col r0 c) (col r c) = false) ->
  violates_unique t rows r = false.
Proof.
  intros H. unfold violates_unique. apply not_true_is_false. intros Hx.
  apply existsb_exists in Hx as (c & Hc & Hx). apply existsb_exists in Hx as (r0 & Hr0 & Hx).
  rewrite H in Hx; [done| |]; by apply list_elem_of_In.
Qed.

Lemma find_row_app_none conds l l' :
  find_row conds l = None -> find_row conds (l ++ l') = find_row conds l'.
Proof.
  induction l as [|r l IH]; simpl; [done|]. by destruct (row_matches conds r).
Qed.

Lemma hexdigest_cons b d :
  hexdigest (b :: d) =
    String (hex_char (Byte.to_nat b / 16)) (String (hex_char (Byte.to_nat b mod 16)) (hexdigest d)).
Proof. reflexivity. Qed.

Lemma hexdigest_length d : String.length (hexdigest d) = 2 * length d.
Proof. induction d as [|b d IH]; [done|]. rewrite hexdigest_cons. simpl. lia. Qed.

Lemma hex_char_elem n : n < 16 -> hex_char n ∈ String.list_ascii_of_string "0123456789abcdef".
Proof. intros Hn. apply list_elem_of_In, nth_In. simpl. lia. Qed.

Lemma hexdigest_chars d i c :
  String.get i (hexdigest d) = Some c -> c ∈ String.list_ascii_of_string "0123456789abcdef".
Proof.
  revert i c. induction d as [|b d IH]; intros i c Hi; [by destruct i|].
  rewrite hexdigest_cons in Hi. pose proof (Byte.to_nat_bounded b).
  assert (H1 : Byte.to_nat b / 16 < 16) by (apply Nat.Div0.div_lt_upper_bound; lia).
  assert (H2 : Byte.to_nat b mod 16 < 16) by (apply Nat.mod_upper_bound; lia).
  destruct i as [|[|i]]; cbn [String.get] in Hi.
  - injection Hi as <-. by apply hex_char_elem.
  - injection Hi as <-. by apply hex_char_elem.
  - by apply (IH i c).
Qed.

Lemma try_requests_content_ok E url b s :
  http_content E url = Some b ->
  try_notfound (requests_get_content E url) s =
    (inr (Some b), mkSt (st_db s) (st_fs s) (st_log s ++ [(url, [])])).
Proof.
  intros H. unfold try_notfound, requests_get_content, log_request, modify, mbind, M_bind.
  by rewrite H.
Qed.

Lemma archive_existing E root fd fid lf b s r0 :
  fd !! "FlightID" = Some fid -> fd !! "LoggerFile" = Some lf ->
  http_content E (igc_url fid) = Some b ->
  find_row [("sha256_hash", VStr (hexdigest (sha256_digest E b)))] (tbl s "trace") = Some r0 ->
  download_and_archive_trace E root fd s =
    (inr (Some (col r0 "id")), mkSt (st_db s) (st_fs s) (st_log s ++ [(igc_url fid, [])])).
Proof.
  intros Hfid Hlf Hb Hf. unfold download_and_archive_trace. cbv zeta.
  rewrite (bind_inr _ _ _ _ _ (getitem_some _ _ _ s Hfid)).
  rewrite (bind_inr _ _ _ _ _ (getitem_some _ _ _ s Hlf)).
  fold (igc_url fid). rewrite (bind_inr _ _ _ _ _ (try_requests_content_ok _ _ _ s Hb)).
  cbv beta iota.
  rewrite (bind_inr _ _ _ (Some (col r0 "id"))
             (mkSt (st_db s) (st_fs s) (st_log s ++ [(igc_url fid, [])]))); [reflexivity|].
  unfold select_id. change (tbl (mkSt (st_db s) _ _) "trace") with (tbl s "trace").
  by rewrite Hf.
Qed.

Lemma trace_row_hash E lf h rows :
  col (with_rowid "trace" rows (trace_row E lf h)) "sha256_hash" = VStr h.
Proof. by rewrite col_with_rowid. Qed.

Lemma trace_row_id E lf h rows :
  col (with_rowid "trace" rows (trace_row E lf h)) "id" = VInt (next_rowid rows).
Proof. reflexivity. Qed.

Lemma db_insert_trace_new E lf h s :
  find_row [("sha256_hash", VStr h)] (tbl s "trace") = None ->
  db_insert "trace" (trace_row E lf h) s =
    (inr tt, set_tbl "trace" (tbl s "trace" ++
                [with_rowid "trace" (tbl s "trace") (trace_row E lf h)]) s).
Proof.
  intros Hf. unfold db_insert. cbv zeta.
  rewrite violates_unique_false; [done|].
  intros c r0 Hc Hr0. simpl in Hc.
  apply elem_of_cons in Hc as [->|Hc]; [|apply elem_of_cons in Hc as [->|Hc]].
  - rewrite trace_row_id. destruct (col r0 "id") eqn:Hid; try done.
    apply not_true_is_false. intros Heq. apply sql_eq_true in Heq as [Heq _].
    injection Heq as ->. pose proof (next_rowid_gt _ _ _ Hr0 Hid). lia.
  - rewrite trace_row_hash. apply not_true_is_false. intros Heq.
    pose proof (find_row_none _ _ Hf r0 Hr0) as Hm.
    rewrite (proj2 (row_matches_single _ _ _)) in Hm; [done|].
    by apply sql_eq_true in Heq.
  - by apply not_elem_of_nil in Hc.
Qed.

Lemma archive_new E root fd fid lf b s :
  fd !! "FlightID" = Some fid -> fd !! "LoggerFile" = Some lf ->
  http_content E (igc_url fid) = Some b ->
  sha256_digest E b <> [] ->
  find_row [("sha256_hash", VStr (hexdigest (sha256_digest E b)))] (tbl s "trace") = None ->
  exists c0 c1 rest,
    hexdigest (sha256_digest E b) = String c0 (String c1 rest) /\
    let h := hexdigest (sha256_digest E b) in
    let r' := with_rowid "trace" (tbl s "trace") (trace_row E lf h) in
    download_and_archive_trace E root fd s =
      (inr (Some (col r' "id")),
       set_tbl "trace" (tbl s "trace" ++ [r'])
         (mkSt (st_db s)
               (<[root ++ [String c0 EmptyString; String c1 EmptyString; h] := b]> (st_fs s))
               (st_log s ++ [(igc_url fid, [])]))).
Proof.
  intros Hfid Hlf Hb Hd Hf.
  assert (Hh : exists c0 c1 rest, hexdigest (sha256_digest E b) = String c0 (String c1 rest)).
  { destruct (sha256_digest E b) as [|b0 d]; [done|]. rewrite hexdigest_cons. eauto. }
  destruct Hh as (c0 & c1 & rest & Hh). exists c0, c1, rest. split; [done|]. cbv zeta.
  unfold download_and_archive_trace. cbv zeta.
  rewrite (bind_inr _ _ _ _ _ (getitem_some _ _ _ s Hfid)).
  rewrite (bind_inr _ _ _ _ _ (getitem_some _ _ _ s Hlf)).
  fold (igc_url fid). rewrite (bind_inr _ _ _ _ _ (try_requests_content_ok _ _ _ s Hb)).
  cbv beta iota.
  set (h := hexdigest (sha256_digest E b)) in *.
  set (sl := mkSt (st_db s) (st_fs s) (st_log s ++ [(igc_url fid, [])])).
  rewrite (bind_inr _ _ _ None sl); cycle 1.
  { unfold select_id. change (tbl sl "trace") with (tbl s "trace"). by rewrite Hf. }
  cbv beta iota.
  rewrite (bind_inr _ _ _ [String c0 EmptyString; String c1 EmptyString; h] sl); cycle 1.
  { unfold archive_path_of, str_index, mbind, M_bind. rewrite Hh. reflexivity. }
  set (sw := mkSt (st_db s) (<[root ++ [String c0 EmptyString; String c1 EmptyString; h] := b]>
                                (st_fs s)) (st_log s ++ [(igc_url fid, [])])).
  rewrite (bind_inr _ _ _ tt sw); [|reflexivity].
  set (r' := with_rowid "trace" (tbl s "trace") (trace_row E lf h)).
  set (si := set_tbl "trace" (tbl s "trace" ++ [r']) sw).
  rewrite (bind_inr _ _ _ tt si); cycle 1.
  { change (db_insert "trace" (trace_row E lf h) sw = (inr tt, si)).
    rewrite db_insert_trace_new; [done|]. exact Hf. }
  rewrite (bind_inr _ _ _ (col r' "id") si); [reflexivity|].
  rewrite (bind_inr _ _ _ (Some (col r' "id")) si); [reflexivity|].
  unfold select_id. unfold si. rewrite tbl_set_tbl_eq.
  change (tbl sw "trace") with (tbl s "trace").
  rewrite find_row_app_none by exact Hf. cbn [find_row].
  rewrite (proj2 (row_matches_single _ _ _)); [done|].
  split; [apply trace_row_hash|done].
Qed.

Lemma filter_col_new rows c v r' :
  find_row [(c, v)] rows = None -> col r' c = v -> v <> VNull ->
  length (filter (fun r => col r c = v) (rows ++ [r'])) = 1.
Proof.
  intros Hf Hc Hv.
  assert (Hnil : filter (fun r => col r c = v) rows = []).
  { destruct (filter (fun r => col r c = v) rows) as [|r0 l] eqn:E0; [done|exfalso].
    assert (Hr0 : r0 ∈ filter (fun r => col r c = v) rows) by (rewrite E0; left).
    apply list_elem_of_filter in Hr0 as [Hc0 Hin].
    pose proof (find_row_none _ _ Hf r0 Hin) as Hfalse.
    rewrite (proj2 (row_matches_single _ _ _)) in Hfalse; done. }
  rewrite filter_app, Hnil, filter_cons_True by done. by rewrite filter_nil.
Qed.

(** Claim C6: a downloaded trace whose hash is not yet stored is written to
    [<archive_root>/<h[0]>/<h[1]>/<h>], where [h] is the 64-character
    lowercase hexadecimal SHA-256 digest of the bytes, and the file holds
    exactly the downloaded bytes; the call returns the new trace id. *)
Theorem download_and_archive_trace_layout E root fd fid lf b s :
  fd !! "FlightID" = Some fid -> fd !! "LoggerFile" = Some lf ->
  http_content E (igc_url fid) = Some b ->
  length (sha256_digest E b) = 32 ->
  find_row [("sha256_hash", VStr (hexdigest (sha256_digest E b)))] (tbl s "trace") = None ->
  let h := hexdigest (sha256_digest E b) in
  String.length h = 64 /\
  (forall i c, String.get i h = Some c -> c ∈ String.list_ascii_of_string "0123456789abcdef") /\
  exists c0 c1 rest id,
    h = String c0 (String c1 rest) /\
    (download_and_archive_trace E root fd s).1 = inr (Some id) /\
    st_fs (download_and_archive_trace E root fd s).2 =
      <[root ++ [String c0 EmptyString; String c1 EmptyString; h] := b]> (st_fs s).
Proof.
  intros Hfid Hlf Hb Hlen Hf h. split; [unfold h; rewrite hexdigest_length; lia|].
  split; [apply hexdigest_chars|].
  assert (Hd : sha256_digest E b <> []) by (intros Hd; rewrite Hd in Hlen; done).
  destruct (archive_new E root fd fid lf b s Hfid Hlf Hb Hd Hf) as (c0 & c1 & rest & Hh & Heq).
  cbv zeta in Heq. exists c0, c1, rest. eexists. split; [exact Hh|].
  rewrite Heq. split; reflexivity.
Qed.

Lemma download_and_archive_trace_layout_witness :
  let E := sample_env (Some sample_igc) [] in
  let fd := sample_flight 1001 [] in
  let h := hexdigest (sha256_digest E sample_igc) in
  fd !! "FlightID" = Some (VInt 1001) /\ fd !! "LoggerFile" = Some (VStr "flight.igc") /\
  http_content E (igc_url (VInt 1001)) = Some sample_igc /\
  length (sha256_digest E sample_igc) = 32 /\
  find_row [("sha256_hash", VStr h)] (tbl s_empty "trace") = None /\
  String.length h = 64 /\
  (forall i c, String.get i h = Some c -> c ∈ String.list_ascii_of_string "0123456789abcdef") /\
  exists c0 c1 rest id,
    h = String c0 (String c1 rest) /\
    (download_and_archive_trace E ["traces"] fd s_empty).1 = inr (Some id) /\
    st_fs (download_and_archive_trace E ["traces"] fd s_empty).2 =
      <[["traces"; String c0 EmptyString; String c1 EmptyString; h] := sample_igc]> ∅.
Proof.
  intros E fd h.
  assert (H1 : fd !! "FlightID" = Some (VInt 1001)) by (vm_compute; reflexivity).
  assert (H2 : fd !! "LoggerFile" = Some (VStr "flight.igc")) by (vm_compute; reflexivity).
  assert (H3 : http_content E (igc_url (VInt 1001)) = Some sample_igc) by reflexivity.
  assert (H4 : length (sha256_digest E sample_igc) = 32) by (vm_compute; reflexivity).
  assert (H5 : find_row [("sha256_hash", VStr h)] (tbl s_empty "trace") = None)
    by reflexivity.
  exact (conj H1 (conj H2 (conj H3 (conj H4 (conj H5
    (download_and_archive_trace_layout E ["traces"] fd (VInt 1001) (VStr "flight.igc")
       sample_igc s_empty H1 H2 H3 H4 H5)))))).
Defined.

(** Claim C5: archiving is idempotent per byte content.  When two flights'
    downloads return the same bytes (and stored hashes are distinct), the
    first call returns a trace id and writes at most one file, the second
    call returns the same id, writes no file and inserts no row (only its
    request is recorded), and exactly one trace row carries the hash. *)
Theorem download_and_archive_trace_dedup E root fd1 fd2 fid1 fid2 lf1 lf2 b s r1 s1 :
  fd1 !! "FlightID" = Some fid1 -> fd1 !! "LoggerFile" = Some lf1 ->
  http_content E (igc_url fid1) = Some b ->
  fd2 !! "FlightID" = Some fid2 -> fd2 !! "LoggerFile" = Some lf2 ->
  http_content E (igc_url fid2) = Some b ->
  length (sha256_digest E b) = 32 ->
  NoDup (filter (fun x => x <> VNull) (map (fun r => col r "sha256_hash") (tbl s "trace"))) ->
  download_and_archive_trace E root fd1 s = (r1, s1) ->
  exists id, r1 = inr (Some id) /\
    download_and_archive_trace E root fd2 s1 =
      (inr (Some id), mkSt (st_db s1) (st_fs s1) (st_log s1 ++ [(igc_url fid2, [])])) /\
    length (filter (fun r => col r "sha256_hash" = VStr (hexdigest (sha256_digest E b)))
              (tbl s1 "trace")) = 1 /\
    (st_fs s1 = st_fs s \/ exists p, st_fs s1 = <[p := b]> (st_fs s)).
Proof.
  intros Hfid1 Hlf1 Hb1 Hfid2 Hlf2 Hb2 Hlen Hnd Hrun.
  set (h := hexdigest (sha256_digest E b)).
  destruct (find_row [("sha256_hash", VStr h)] (tbl s "trace")) as [r0|] eqn:Hf.
  - rewrite (archive_existing E root fd1 fid1 lf1 b s r0 Hfid1 Hlf1 Hb1 Hf) in Hrun.
    injection Hrun as <- <-. exists (col r0 "id"). split; [done|].
    split; [apply (archive_existing _ _ _ _ lf2 b); done|].
    split; [|by left].
    change (tbl (mkSt (st_db s) _ _) "trace") with (tbl s "trace").
    apply find_row_some in Hf as [Hin Hm]. apply row_matches_single in Hm as [Hc Hv].
    pose proof (filter_col_le1 _ _ _ Hnd Hv). pose proof (filter_col_ge1 _ _ _ _ Hin Hc).
    lia.
  - assert (Hd : sha256_digest E b <> []) by (intros Hd; rewrite Hd in Hlen; done).
    destruct (archive_new E root fd1 fid1 lf1 b s Hfid1 Hlf1 Hb1 Hd Hf)
      as (c0 & c1 & rest & Hh & Heq).
    cbv zeta in Heq. rewrite Heq in Hrun. injection Hrun as <- <-.
    set (r' := with_rowid "trace" (tbl s "trace") (trace_row E lf1 h)).
    assert (Hc : col r' "sha256_hash" = VStr h) by apply trace_row_hash.
    exists (col r' "id"). split; [done|]. split; [|split].
    + apply (archive_existing _ _ _ _ lf2 b); [done..|].
      rewrite tbl_set_tbl_eq, find_row_app_none by exact Hf. cbn [find_row].
      rewrite (proj2 (row_matches_single _ _ _)); done.
    + rewrite tbl_set_tbl_eq. by apply filter_col_new.
    + right. eexists. reflexivity.
Qed.

Lemma download_and_archive_trace_dedup_witness :
  let E := sample_env (Some sample_igc) [] in
  let fd1 := sample_flight 1001 [] in
  let fd2 := sample_flight 1002 [] in
  let run1 := download_and_archive_trace E ["traces"] fd1 s_empty in
  let s1 := run1.2 in
  fd1 !! "FlightID" = Some (VInt 1001) /\ fd1 !! "LoggerFile" = Some (VStr "flight.igc") /\
  http_content E (igc_url (VInt 1001)) = Some sample_igc /\
  fd2 !! "FlightID" = Some (VInt 1002) /\ fd2 !! "LoggerFile" = Some (VStr "flight.igc") /\
  http_content E (igc_url (VInt 1002)) = Some sample_igc /\
  length (sha256_digest E sample_igc) = 32 /\
  exists id, run1.1 = inr (Some id) /\
    download_and_archive_trace E ["traces"] fd2 s1 =
      (inr (Some id), mkSt (st_db s1) (st_fs s1) (st_log s1 ++ [(igc_url (VInt 1002), [])])) /\
    length (filter (fun r => col r "sha256_hash" = VStr (hexdigest (sha256_digest E sample_igc)))
              (tbl s1 "trace")) = 1 /\
    (st_fs s1 = st_fs s_empty \/ exists p, st_fs s1 = <[p := sample_igc]> (st_fs s_empty)).
Proof.
  intros E fd1 fd2 run1 s1.
  assert (H1 : fd1 !! "FlightID" = Some (VInt 1001)) by (vm_compute; reflexivity).
  assert (H2 : fd1 !! "LoggerFile" = Some (VStr "flight.igc")) by (vm_compute; reflexivity).
  assert (H3 : http_content E (igc_url (VInt 1001)) = Some sample_igc) by reflexivity.
  assert (H4 : fd2 !! "FlightID" = Some (VInt 1002)) by (vm_compute; reflexivity).
  assert (H5 : fd2 !! "LoggerFile" = Some (VStr "flight.igc")) by (vm_compute; reflexivity).
  assert (H6 : http_content E (igc_url (VInt 1002)) = Some sample_igc) by reflexivity.
  assert (H7 : length (sha256_digest E sample_igc) = 32) by (vm_compute; reflexivity).
  assert (H8 : NoDup (filter (fun x => x <> VNull)
                 (map (fun r => col r "sha256_hash") (tbl s_empty "trace"))))
    by (vm_compute; constructor).
  exact (conj H1 (conj H2 (conj H3 (conj H4 (conj H5 (conj H6 (conj H7
    (download_and_archive_trace_dedup E ["traces"] fd1 fd2 (VInt 1001) (VInt 1002)
       (VStr "flight.igc") (VStr "flight.igc") sample_igc s_empty run1.1 s1
       H1 H2 H3 H4 H5 H6 H7 H8 (surjective_pairing _))))))))).
Defined.

(** ** Entity resolution *)

Lemma row_matches_pilot f sn l r :
  row_matches (pilot_key f sn l) r = true <->
  col r "forename" = f /\ col r "surname" = sn /\ col r "ladder_id" = l /\
  f <> VNull /\ sn <> VNull /\ l <> VNull.
Proof.
  unfold row_matches, pilot_key; simpl.
  rewrite andb_true_r, !andb_true_iff, !sql_eq_true. naive_solver.
Qed.

Lemma violates_unique_col t rows r c r0 :
  violates_unique t rows r = false -> c ∈ unique_cols t -> r0 ∈ rows ->
  sql_eq (col r0 c) (col r c) = false.
Proof.
  intros Hv Hc Hr0. apply not_true_is_false. intros Hx.
  unfold violates_unique in Hv. rewrite <- not_true_iff_false in Hv. apply Hv.
  apply existsb_exists. exists c. split; [by apply list_elem_of_In|].
  apply existsb_exists. exists r0. split; [by apply list_elem_of_In|done].
Qed.

Lemma filter_matches_new conds rows r' :
  find_row conds rows = None -> row_matches conds r' = true ->
  length (filter (fun r => row_matches conds r = true) (rows ++ [r'])) = 1.
Proof.
  intros Hf Hm.
  assert (Hnil : filter (fun r => row_matches conds r = true) rows = []).
  { destruct (filter (fun r => row_matches conds r = true) rows) as [|r0 l] eqn:E0;
      [done|exfalso].
    assert (Hr0 : r0 ∈ filter (fun r => row_matches conds r = true) rows) by (rewrite E0; left).
    apply list_elem_of_filter in Hr0 as [Hc0 Hin].
    rewrite (find_row_none _ _ Hf r0 Hin) in Hc0. done. }
  rewrite filter_app, Hnil, filter_cons_True by done. by rewrite filter_nil.
Qed.

Lemma filter_length_impl {A} (P Q : A -> Prop) `{!forall x, Decision (P x)}
    `{!forall x, Decision (Q x)} (l : list A) :
  (forall x, P x -> Q x) -> length (filter P l) <= length (filter Q l).
Proof.
  intros HPQ. induction l as [|x l IH]; [simpl; lia|].
  rewrite !filter_cons. destruct (decide (P x)), (decide (Q x)); simpl; try lia.
  exfalso. auto.
Qed.

Lemma find_row_matches_one conds rows r :
  find_row conds rows = Some r -> 1 <= length (filter (fun r => row_matches conds r = true) rows).
Proof.
  intros Hf. apply find_row_some in Hf as [Hin Hm].
  destruct (filter (fun r => row_matches conds r = true) rows) eqn:E0; simpl; [|lia].
  assert (Hr : r ∈ filter (fun r => row_matches conds r = true) rows)
    by (by apply list_elem_of_filter).
  rewrite E0 in Hr. by apply not_elem_of_nil in Hr.
Qed.

Lemma bind_inl {A B} (m : M A) (f : A -> M B) s e s' :
  m s = (inl e, s') -> (m ≫= f) s = (inl e, s').
Proof. intros E. unfold mbind, M_bind. by rewrite E. Qed.

(** The insert-then-reselect branch shared by the resolvers: the insert
    succeeds and the reselect by the unique column [c] finds the new row. *)
Lemma insert_reselect t r c v s :
  c ∈ unique_cols t -> col r c = v -> v <> VNull -> c <> "id" ->
  violates_unique t (tbl s t) (with_rowid t (tbl s t) r) = false ->
  (db_insert t r;; select_id t [(c, v)] ≫= fetch_id) s =
    (inr (col (with_rowid t (tbl s t) r) "id"),
     set_tbl t (tbl s t ++ [with_rowid t (tbl s t) r]) s).
Proof.
  intros Hc Hcv Hv Hid Hnv. set (r' := with_rowid t (tbl s t) r) in *.
  assert (Hcr : col r' c = v) by (unfold r'; by rewrite col_with_rowid).
  assert (Hnone : find_row [(c, v)] (tbl s t) = None).
  { destruct (find_row [(c, v)] (tbl s t)) as [r0|] eqn:Hf; [exfalso|done].
    apply find_row_some in Hf as [Hin Hm]. apply row_matches_single in Hm as [Hr0 _].
    pose proof (violates_unique_col _ _ _ _ _ Hnv Hc Hin) as Hx.
    rewrite Hr0, Hcr in Hx. destruct v; try done; simpl in Hx;
      rewrite bool_decide_true in Hx; done. }
  unfold mbind at 1, M_bind at 1. unfold db_insert at 1. cbv zeta. fold r'.
  rewrite Hnv. unfold mbind, M_bind, select_id. rewrite tbl_set_tbl_eq.
  rewrite find_row_app_none by exact Hnone. cbn [find_row].
  rewrite (proj2 (row_matches_single _ _ _)) by done. reflexivity.
Qed.

Lemma violates_unique_fresh t rows r c v :
  unique_cols t = ["id"; c] -> c <> "id" -> has_rowid t = true -> col r "id" = VNull ->
  col r c = v -> find_row [(c, v)] rows = None ->
  violates_unique t rows (with_rowid t rows r) = false.
Proof.
  intros Hu Hc Hrow Hid Hcv Hf. apply violates_unique_false.
  intros c' r0 Hc' Hr0. rewrite Hu in Hc'.
  apply elem_of_cons in Hc' as [->|Hc']; [|apply elem_of_cons in Hc' as [->|Hc']].
  - assert (Hnew : col (with_rowid t rows r) "id" = VInt (next_rowid rows)).
    { unfold with_rowid. rewrite Hrow, bool_decide_true by done. reflexivity. }
    rewrite Hnew. destruct (col r0 "id") eqn:Hid0; try done.
    apply not_true_is_false. intros Heq. apply sql_eq_true in Heq as [Heq _].
    injection Heq as ->. pose proof (next_rowid_gt _ _ _ Hr0 Hid0). lia.
  - rewrite col_with_rowid by done. apply not_true_is_false. intros Heq.
    pose proof (find_row_none _ _ Hf r0 Hr0) as Hm.
    rewrite (proj2 (row_matches_single _ _ _)) in Hm; [done|].
    apply sql_eq_true in Heq. naive_solver.
  - by apply not_elem_of_nil in Hc'.
Qed.

Lemma get_or_create_pilot_found f sn l s r0 :
  find_row (pilot_key f sn l) (tbl s "pilot") = Some r0 ->
  get_or_create_pilot f sn l s = (inr (col r0 "id"), s).
Proof.
  intros Hf. unfold get_or_create_pilot.
  rewrite (bind_inr _ _ s (Some (col r0 "id")) s); [reflexivity|].
  unfold select_id. unfold pilot_key in Hf. by rewrite Hf.
Qed.

Lemma get_or_create_pilot_new f sn l s :
  find_row (pilot_key f sn l) (tbl s "pilot") = None ->
  get_or_create_pilot f sn l s =
    (db_insert "pilot" (pilot_key f sn l);;
     select_id "pilot" [("ladder_id", l)] ≫= fetch_id) s.
Proof.
  intros Hf. unfold get_or_create_pilot.
  rewrite (bind_inr _ _ s None s); [reflexivity|].
  unfold select_id. unfold pilot_key in Hf. by rewrite Hf.
Qed.

Lemma get_or_create_club_found c s r0 :
  find_row [("ladder_code", c)] (tbl s "club") = Some r0 ->
  get_or_create_club c s = (inr (col r0 "id"), s).
Proof.
  intros Hf. unfold get_or_create_club.
  rewrite (bind_inr _ _ s (Some (col r0 "id")) s); [reflexivity|].
  unfold select_id. by rewrite Hf.
Qed.

Lemma get_or_create_club_new c s :
  find_row [("ladder_code", c)] (tbl s "club") = None ->
  get_or_create_club c s =
    (db_insert "club" [("ladder_code", c)];;
     select_id "club" [("ladder_code", c)] ≫= fetch_id) s.
Proof.
  intros Hf. unfold get_or_create_club.
  rewrite (bind_inr _ _ s None s); [reflexivity|].
  unfold select_id. by rewrite Hf.
Qed.

(** Claim C9 does not hold as stated: (a) a pilot row for ladder id 7
    stored under the name "Joe Roberts" makes [get_or_create_pilot] for
    "Joseph Roberts" with ladder id 7 fail with an integrity error, so it
    returns no id; (b) from an empty database, a pilot key with a NULL
    forename gets an id on the first call, and the second call with the same
    key fails, because the NULL never matches the lookup. *)
Lemma get_or_create_pilot_not_stable :
  get_or_create_pilot (VStr "Joseph") (VStr "Roberts") (VInt 7) s_joe =
    (inl IntegrityError, s_joe) /\
  (get_or_create_pilot VNull (VStr "Roberts") (VInt 7) s_empty).1 = inr (VInt 1) /\
  (get_or_create_pilot VNull (VStr "Roberts") (VInt 7)
     (get_or_create_pilot VNull (VStr "Roberts") (VInt 7) s_empty).2).1 = inl IntegrityError.
Proof. split_and!; vm_compute; reflexivity. Qed.

(** Claim C9 (amended): for a pilot key with non-NULL forename, surname and
    ladder id, over stored pilot ladder ids that are distinct: if
    [get_or_create_pilot] returns an id, a second call with the same key
    returns the same id and changes nothing, exactly one pilot row matches
    the key, and the first call either changed nothing or appended one row
    holding only the key fields (plus its generated id).  For a non-NULL
    club code over distinct stored codes, [get_or_create_club] always
    returns an id, appending at most one row holding only the code (plus its
    generated id); a second call returns the same id and changes nothing,
    and exactly one club row carries the code. *)
Theorem get_or_create_stable :
  (forall f sn l s id s1,
     f <> VNull -> sn <> VNull -> l <> VNull ->
     NoDup (filter (fun x => x <> VNull) (map (fun r => col r "ladder_id") (tbl s "pilot"))) ->
     get_or_create_pilot f sn l s = (inr id, s1) ->
     get_or_create_pilot f sn l s1 = (inr id, s1) /\
     length (filter (fun r => row_matches (pilot_key f sn l) r = true) (tbl s1 "pilot")) = 1 /\
     (s1 = s \/
      s1 = set_tbl "pilot"
             (tbl s "pilot" ++ [with_rowid "pilot" (tbl s "pilot") (pilot_key f sn l)]) s)) /\
  (forall c s,
     c <> VNull ->
     NoDup (filter (fun x => x <> VNull) (map (fun r => col r "ladder_code") (tbl s "club"))) ->
     exists id s1,
       get_or_create_club c s = (inr id, s1) /\
       get_or_create_club c s1 = (inr id, s1) /\
       length (filter (fun r => col r "ladder_code" = c) (tbl s1 "club")) = 1 /\
       (s1 = s \/
        s1 = set_tbl "club"
               (tbl s "club" ++ [with_rowid "club" (tbl s "club") [("ladder_code", c)]]) s)).
Proof.
  split.
  - intros f sn l s id s1 Hf Hsn Hl Hnd H.
    destruct (find_row (pilot_key f sn l) (tbl s "pilot")) as [r0|] eqn:Hfr.
    + rewrite (get_or_create_pilot_found _ _ _ _ _ Hfr) in H. injection H as <- <-.
      split; [by apply get_or_create_pilot_found|]. split; [|by left].
      pose proof (find_row_matches_one _ _ _ Hfr).
      pose proof (filter_col_le1 _ "ladder_id" l Hnd Hl).
      pose proof (filter_length_impl (fun r => row_matches (pilot_key f sn l) r = true)
                    (fun r => col r "ladder_id" = l) (tbl s "pilot")) as Himp.
      ospecialize (Himp _); [intros r Hr; by apply row_matches_pilot in Hr as (_ & _ & ? & _)|].
      lia.
    + rewrite (get_or_create_pilot_new _ _ _ _ Hfr) in H.
      set (r' := with_rowid "pilot" (tbl s "pilot") (pilot_key f sn l)) in *.
      destruct (violates_unique "pilot" (tbl s "pilot") r') eqn:Hnv.
      { rewrite (bind_inl _ _ s IntegrityError s) in H; [done|].
        unfold db_insert. cbv zeta. fold r'. by rewrite Hnv. }
      rewrite (insert_reselect "pilot" (pilot_key f sn l) "ladder_id" l) in H;
        [|by right; left|done|done|done|exact Hnv].
      fold r' in H. injection H as <- <-.
      assert (Hm : row_matches (pilot_key f sn l) r' = true).
      { apply row_matches_pilot. unfold r'. rewrite !col_with_rowid by done.
        split_and!; done. }
      split; [|split; [|by right]].
      * apply get_or_create_pilot_found.
        rewrite tbl_set_tbl_eq, find_row_app_none by exact Hfr. cbn [find_row].
        by rewrite Hm.
      * rewrite tbl_set_tbl_eq. by apply filter_matches_new.
  - intros c s Hc Hnd.
    destruct (find_row [("ladder_code", c)] (tbl s "club")) as [r0|] eqn:Hfr.
    + exists (col r0 "id"), s. rewrite (get_or_create_club_found _ _ _ Hfr).
      split_and!; [done|done| |by left].
      apply find_row_some in Hfr as [Hin Hm]. apply row_matches_single in Hm as [Hc0 _].
      pose proof (filter_col_le1 _ _ _ Hnd Hc). pose proof (filter_col_ge1 _ _ _ _ Hin Hc0).
      lia.
    + set (r' := with_rowid "club" (tbl s "club") [("ladder_code", c)]).
      assert (Hnv : violates_unique "club" (tbl s "club") r' = false)
        by (apply (violates_unique_fresh _ _ _ "ladder_code" c); done).
      assert (Hrun : get_or_create_club c s =
                (inr (col r' "id"), set_tbl "club" (tbl s "club" ++ [r']) s)).
      { rewrite (get_or_create_club_new _ _ Hfr).
        apply (insert_reselect "club" [("ladder_code", c)] "ladder_code" c);
          [by right; left|done|done|done|exact Hnv]. }
      exists (col r' "id"), (set_tbl "club" (tbl s "club" ++ [r']) s).
      assert (Hcr : col r' "ladder_code" = c) by (unfold r'; by rewrite col_with_rowid).
      split_and!; [exact Hrun| | |by right].
      * apply get_or_create_club_found.
        rewrite tbl_set_tbl_eq, find_row_app_none by exact Hfr. cbn [find_row].
        by rewrite (proj2 (row_matches_single _ _ _)).
      * rewrite tbl_set_tbl_eq. by apply filter_col_new.
Qed.

Lemma get_or_create_stable_witness :
  VStr "Ann" <> VNull /\ VStr "Smith" <> VNull /\ VInt 7 <> VNull /\
  get_or_create_pilot (VStr "Ann") (VStr "Smith") (VInt 7) s_empty = (inr (VInt 1),
    (get_or_create_pilot (VStr "Ann") (VStr "Smith") (VInt 7) s_empty).2) /\
  get_or_create_pilot (VStr "Ann") (VStr "Smith") (VInt 7)
    (get_or_create_pilot (VStr "Ann") (VStr "Smith") (VInt 7) s_empty).2 =
    (inr (VInt 1), (get_or_create_pilot (VStr "Ann") (VStr "Smith") (VInt 7) s_empty).2) /\
  exists id s1, get_or_create_club (VStr "CAM") s_joe = (inr id, s1) /\
    get_or_create_club (VStr "CAM") s1 = (inr id, s1).
Proof.
  assert (Ha : VStr "Ann" <> VNull) by discriminate.
  assert (Hs : VStr "Smith" <> VNull) by discriminate.
  assert (H7 : VInt 7 <> VNull) by discriminate.
  assert (Hnd : NoDup (filter (fun x => x <> VNull)
                  (map (fun r => col r "ladder_id") (tbl s_empty "pilot"))))
    by (vm_compute; constructor).
  assert (Hrun : get_or_create_pilot (VStr "Ann") (VStr "Smith") (VInt 7) s_empty =
    (inr (VInt 1), (get_or_create_pilot (VStr "Ann") (VStr "Smith") (VInt 7) s_empty).2))
    by (vm_compute; reflexivity).
  assert (Hcnd : NoDup (filter (fun x => x <> VNull)
                  (map (fun r => col r "ladder_code") (tbl s_joe "club"))))
    by (vm_compute; constructor).
  destruct get_or_create_stable as [Hp Hc].
  destruct (Hp _ _ _ _ _ _ Ha Hs H7 Hnd Hrun) as [H2 _].
  destruct (Hc (VStr "CAM") s_joe ltac:(discriminate) Hcnd) as (id & s2 & Hc1 & Hc2 & _).
  exact (conj Ha (conj Hs (conj H7 (conj Hrun (conj H2 (ex_intro _ id (ex_intro _ s2
    (conj Hc1 Hc2)))))))).
Defined.

(** ** Pagination *)

Lemma bind_assoc {A B C} (m : M A) (f : A -> M B) (g : B -> M C) s :
  ((m ≫= f) ≫= g) s = (m ≫= (fun x => f x ≫= g)) s.
Proof. unfold mbind, M_bind. by destruct (m s) as [[e|x] s']. Qed.

Lemma dict_set_dict_set k v v' d : dict_set k v (dict_set k v' d) = dict_set k v d.
Proof.
  induction d as [|[k' w] d IH]; simpl.
  - by rewrite bool_decide_true.
  - case_bool_decide; simpl; [by rewrite bool_decide_true|].
    rewrite bool_decide_false by done. by rewrite IH.
Qed.

Lemma requests_get_rows_ok E url params rows s :
  http_rows E url params = Some rows ->
  requests_get_rows E url params s =
    (inr rows, mkSt (st_db s) (st_fs s) (st_log s ++ [(url, params)])).
Proof. intros H. unfold requests_get_rows, log_request, modify, mbind, M_bind. by rewrite H. Qed.

Lemma paginate_from_sweep {C} E (process : val -> flight_rec -> C -> M C) page_size params
    pages : forall fuel p j tot c s,
  (forall x, dict_set "page" x p = dict_set "page" x params) ->
  (forall i fl, pages !! i = Some fl ->
     http_rows E daily_scores_url (dict_set "page" (VInt (Z.of_nat (j + i))) params) = Some fl) ->
  (forall i fl, pages !! i = Some fl -> S i < length pages ->
     Z.of_nat (length fl) = page_size) ->
  (forall fl, last pages = Some fl -> (Z.of_nat (length fl) < page_size)%Z) ->
  pages <> [] -> length pages <= fuel ->
  paginate_from E fuel process page_size p j tot c s =
    (c' ← spec_page_sweep E process params pages j c;
     mret (tot + sum_list (map length pages), c')) s.
Proof.
  induction pages as [|fl pages IH]; intros fuel p j tot c s Hp Hget Hfull Hlast Hne Hfuel;
    [done|].
  destruct fuel as [|fuel]; [simpl in Hfuel; lia|].
  cbn [paginate_from spec_page_sweep]. cbv zeta.
  rewrite bind_assoc. rewrite Hp.
  assert (Hreq : http_rows E daily_scores_url (dict_set "page" (VInt (Z.of_nat j)) params) = Some fl)
    by (rewrite <- (Hget 0 fl) by done; do 3 f_equal; lia).
  rewrite (bind_inr _ _ _ _ _ (requests_get_rows_ok _ _ _ _ s Hreq)).
  unfold log_request at 1, modify at 1.
  rewrite (bind_inr _ _ s tt (mkSt (st_db s) (st_fs s)
    (st_log s ++ [(daily_scores_url, dict_set "page" (VInt (Z.of_nat j)) params)])));
    [|reflexivity].
  rewrite bind_assoc. unfold mbind at 1 2, M_bind at 1 2.
  destruct (process_all process (clock E) fl c _) as [[e|c1] s2]; [done|].
  destruct pages as [|fl' pages'].
  - rewrite bool_decide_true by (apply Hlast; done). cbn [spec_page_sweep].
    unfold mbind, M_bind, mret, M_ret. simpl. do 3 f_equal. lia.
  - rewrite bool_decide_false; cycle 1.
    { rewrite (Hfull 0 fl) by (simpl; done || lia). lia. }
    rewrite (IH fuel); cycle 1.
    + intros x. by rewrite dict_set_dict_set.
    + intros i fl0 Hi. rewrite <- (Hget (S i) fl0) by done. do 3 f_equal. lia.
    + intros i fl0 Hi Hlt. apply (Hfull (S i)); [done|simpl in *; lia].
    + intros fl0 Hl. apply Hlast. done.
    + done.
    + simpl in *. lia.
    + unfold mbind, M_bind.
      destruct (spec_page_sweep E process params (fl' :: pages') (S j) c1 s2) as [[e|c2] s3];
        [done|]. unfold mret, M_ret. simpl. do 3 f_equal. lia.
Qed.

(** Claim C7: the pagination driver requests pages 1, 2, ... in turn, feeds
    each page's records to the callback in arrival order, stops after the
    first page with fewer than [page_size] records, and returns the total
    number of records: when the server returns the pages [pages] (all full
    but the last, which is short), [get_daily_flights] runs exactly as the
    sweep over [pages] and returns the sum of their lengths. *)
Theorem get_daily_flights_sweep {C} E fuel (process : val -> flight_rec -> C -> M C)
    season month day page_size pages c s :
  (forall j fl, pages !! j = Some fl ->
     http_rows E daily_scores_url
       (dict_set "page" (VInt (Z.of_nat (S j))) (initial_params page_size season month day))
     = Some fl) ->
  (forall j fl, pages !! j = Some fl -> S j < length pages ->
     Z.of_nat (length fl) = page_size) ->
  (forall fl, last pages = Some fl -> (Z.of_nat (length fl) < page_size)%Z) ->
  pages <> [] -> length pages <= fuel ->
  get_daily_flights E fuel process season month day page_size c s =
    (c' ← spec_page_sweep E process (initial_params page_size season month day) pages 1 c;
     mret (sum_list (map length pages), c')) s.
Proof.
  intros Hget Hfull Hlast Hne Hfuel. unfold get_daily_flights.
  apply paginate_from_sweep; auto.
Qed.

Lemma assoc_get_dict_set k v d : assoc_get k (dict_set k v d) = Some v.
Proof.
  induction d as [|[k' w] d IH]; simpl.
  - by rewrite bool_decide_true.
  - case_bool_decide; simpl; [by rewrite bool_decide_true|].
    rewrite bool_decide_false by done. exact IH.
Qed.

Lemma sample_rows_page igc pages params j fl :
  default [] (pages !! j) = fl ->
  http_rows (sample_env igc pages) daily_scores_url
    (dict_set "page" (VInt (Z.of_nat (S j))) params) = Some fl.
Proof.
  intros Hj. simpl. unfold sample_rows. rewrite assoc_get_dict_set.
  rewrite Nat2Z.id. simpl. rewrite Nat.sub_0_r, Hj. reflexivity.
Qed.

Lemma get_daily_flights_sweep_witness :
  let E := sample_env None pages_247 in
  let E' := sample_env None [full_page; full_page; full_page] in
  let params := initial_params 100 (Some 2023%Z) None None in
  get_daily_flights E 5 count_process (Some 2023%Z) None None 100 0 s_empty =
    (c' ← spec_page_sweep E count_process params pages_247 1 0;
     mret (sum_list (map length pages_247), c')) s_empty /\
  (get_daily_flights E 5 count_process (Some 2023%Z) None None 100 0 s_empty).1 =
    inr (247, 247) /\
  length (st_log (get_daily_flights E 5 count_process (Some 2023%Z) None None 100 0 s_empty).2)
    = 3 /\
  get_daily_flights E' 5 count_process (Some 2023%Z) None None 100 0 s_empty =
    (c' ← spec_page_sweep E' count_process params pages_300 1 0;
     mret (sum_list (map length pages_300), c')) s_empty /\
  length (st_log (get_daily_flights E' 5 count_process (Some 2023%Z) None None 100 0 s_empty).2)
    = 4.
Proof.
  intros E E' params.
  assert (H1 : get_daily_flights E 5 count_process (Some 2023%Z) None None 100 0 s_empty =
    (c' ← spec_page_sweep E count_process params pages_247 1 0;
     mret (sum_list (map length pages_247), c')) s_empty).
  { apply (get_daily_flights_sweep E 5 count_process (Some 2023%Z) None None 100 pages_247 0
             s_empty); [intros j fl Hj; apply sample_rows_page; by rewrite Hj| | |discriminate|simpl; lia].
    - intros [|[|j]] fl Hj Hlt; [injection Hj as <-; reflexivity..|simpl in Hlt; lia].
    - intros fl Hl. injection Hl as <-. reflexivity. }
  assert (H2 : get_daily_flights E' 5 count_process (Some 2023%Z) None None 100 0 s_empty =
    (c' ← spec_page_sweep E' count_process params pages_300 1 0;
     mret (sum_list (map length pages_300), c')) s_empty).
  { apply (get_daily_flights_sweep E' 5 count_process (Some 2023%Z) None None 100 pages_300 0
             s_empty); [| | |discriminate|simpl; lia].
    - intros [|[|[|[|j]]]] fl Hj; [injection Hj as <-; by apply sample_rows_page..|].
      discriminate Hj.
    - intros [|[|[|j]]] fl Hj Hlt; [injection Hj as <-; reflexivity..|simpl in Hlt; lia].
    - intros fl Hl. injection Hl as <-. reflexivity. }
  refine (conj H1 (conj _ (conj _ (conj H2 _)))); vm_compute; reflexivity.
Defined.

(** ** Day scrape *)

(** Claim C3 fails on the code: for every date [d], the first request of
    [scrape_day] asks for the listing with [Season = year d] and
    [Day = day d], but with [Month = day d] instead of [month d]
    ([query_month=query_date.day]). *)
Theorem scrape_day_month_is_day E fuel root d s :
  exists k, scrape_day E (S fuel) root d s =
    (requests_get_rows E daily_scores_url
       [("rows", VInt 100); ("Season", VInt (year d)); ("Month", VInt (day d));
        ("Day", VInt (day d)); ("page", VInt 1)] ≫= k) s.
Proof. eexists. reflexivity. Qed.

(** The request [scrape_day] issues for 15 June 2023. *)
Lemma scrape_day_june_15 :
  st_log (scrape_day (sample_env None []) 1 ["traces"] (mkDate 2023 6 15) s_empty).2 =
    [(daily_scores_url,
      [("rows", VInt 100); ("Season", VInt 2023); ("Month", VInt 15); ("Day", VInt 15);
       ("page", VInt 1)])].
Proof. vm_compute. reflexivity. Qed.

(** ** Append-only writes *)

Lemma db_grows_refl s : db_grows s s.
Proof. intros t. exists []. by rewrite app_nil_r. Qed.

Lemma db_grows_trans s1 s2 s3 : db_grows s1 s2 -> db_grows s2 s3 -> db_grows s1 s3.
Proof.
  intros H12 H23 t. destruct (H12 t) as [l1 E1], (H23 t) as [l2 E2].
  exists (l1 ++ l2). by rewrite E2, E1, app_assoc.
Qed.

Lemma db_grows_same_db s s' : st_db s' = st_db s -> db_grows s s'.
Proof. intros H t. exists []. unfold tbl. by rewrite H, app_nil_r. Qed.

Lemma appends_eq {A} (m : M A) s r s' : appends m -> m s = (r, s') -> db_grows s s'.
Proof. intros H E. specialize (H s). by rewrite E in H. Qed.

Lemma readonly_appends {A} (m : M A) : readonly m -> appends m.
Proof. intros H s. rewrite H. apply db_grows_refl. Qed.

Lemma appends_bind {A B} (m : M A) (f : A -> M B) :
  appends m -> (forall x, appends (f x)) -> appends (m ≫= f).
Proof.
  intros Hm Hf s. unfold mbind, M_bind.
  specialize (Hm s). destruct (m s) as [[e|x] s'] eqn:?; [done|].
  eapply db_grows_trans; [apply Hm|apply Hf].
Qed.

Lemma appends_db_insert t r : appends (db_insert t r).
Proof.
  intros s. unfold db_insert. destruct (violates_unique _ _ _); simpl; [apply db_grows_refl|].
  intros t'. destruct (decide (t = t')) as [<-|Hne].
  - eexists. by rewrite tbl_set_tbl_eq.
  - exists []. by rewrite tbl_set_tbl_ne, app_nil_r.
Qed.

Lemma appends_executemany t rows : appends (executemany t rows).
Proof.
  induction rows as [|r rows IH]; simpl.
  - apply readonly_appends, readonly_ret.
  - apply appends_bind; [apply appends_db_insert|]. intros _. apply IH.
Qed.

Lemma appends_fs_log f g : appends (modify (fun s => mkSt (st_db s) (f s) (g s))).
Proof. intros s. by apply db_grows_same_db. Qed.

Lemma appends_try_notfound {A} (m : M A) : appends m -> appends (try_notfound m).
Proof.
  intros H s. specialize (H s). unfold try_notfound.
  by destruct (m s) as [[[] | x] s'].
Qed.

Lemma appends_executemany_gen t mk data :
  (forall x, appends (mk x)) -> appends (executemany_gen t mk data).
Proof.
  intros Hmk. induction data as [|x data IH]; simpl.
  - apply readonly_appends, readonly_ret.
  - apply appends_bind; [apply Hmk|]. intros r.
    apply appends_bind; [apply appends_db_insert|]. intros _. apply IH.
Qed.

Create HintDb appends.
#[local] Hint Resolve readonly_appends appends_db_insert appends_executemany appends_fs_log
  appends_try_notfound readonly_count_distinct : appends.

(** Walk a computation: binds, matches and lets, then the hint bases. *)
Ltac solve_appends :=
  repeat first
    [ match goal with |- forall _, _ => intro end
    | progress cbv zeta
    | apply appends_bind
    | match goal with |- appends (match ?x with _ => _ end) => destruct x end
    | solve [eauto with touches appends] ].

Lemma appends_get_or_create_pilot a b c : appends (get_or_create_pilot a b c).
Proof. unfold get_or_create_pilot. solve_appends. Qed.

Lemma appends_get_or_create_club c : appends (get_or_create_club c).
Proof. unfold get_or_create_club. solve_appends. Qed.

Lemma appends_get_or_create_glider_model a b : appends (get_or_create_glider_model a b).
Proof. unfold get_or_create_glider_model. solve_appends. Qed.

Lemma appends_get_or_create_glider a b : appends (get_or_create_glider a b).
Proof. unfold get_or_create_glider. solve_appends. Qed.

Lemma appends_requests_get_content E url : appends (requests_get_content E url).
Proof. unfold requests_get_content, log_request. solve_appends. Qed.

Lemma appends_requests_get_rows E url params : appends (requests_get_rows E url params).
Proof. unfold requests_get_rows, log_request. solve_appends. Qed.

Lemma appends_requests_get_json api url : appends (requests_get_json api url).
Proof. unfold requests_get_json, log_request. solve_appends. Qed.

#[local] Hint Resolve appends_get_or_create_pilot appends_get_or_create_club
  appends_get_or_create_glider_model appends_get_or_create_glider
  appends_requests_get_content appends_requests_get_rows appends_requests_get_json : appends.

Lemma appends_archive E root fd : appends (download_and_archive_trace E root fd).
Proof. unfold download_and_archive_trace, archive_path_of, write_file. solve_appends. Qed.

Lemma appends_insert_task fd : appends (insert_task fd).
Proof. unfold insert_task. solve_appends. Qed.

#[local] Hint Resolve appends_archive appends_insert_task : appends.

Lemma appends_insert_bga_flight E root fd sc : appends (insert_bga_flight E root fd sc).
Proof. unfold insert_bga_flight. solve_appends. Qed.

Lemma appends_scrape_process E root sc fd c : appends (scrape_process E root sc fd c).
Proof.
  intros s. pose proof (appends_insert_bga_flight E root fd sc s) as H.
  unfold scrape_process.
  destruct (insert_bga_flight E root fd sc s) as [[[] | ?] s']; exact H.
Qed.

Lemma appends_process_all {C} (process : val -> flight_rec -> C -> M C) sc fl c :
  (forall sc fd c, appends (process sc fd c)) -> appends (process_all process sc fl c).
Proof.
  intros Hp. revert c. induction fl as [|fd fl IH]; intros c; simpl.
  - apply readonly_appends, readonly_ret.
  - apply appends_bind; [apply Hp|]. intros c'. apply IH.
Qed.

Lemma appends_paginate_from {C} E fuel (process : val -> flight_rec -> C -> M C)
    page_size params page tot c :
  (forall sc fd c, appends (process sc fd c)) ->
  appends (paginate_from E fuel process page_size params page tot c).
Proof.
  intros Hp. revert params page tot c.
  induction fuel as [|fuel IH]; intros params page tot c; simpl.
  - apply readonly_appends, readonly_raise.
  - apply appends_bind; [apply appends_requests_get_rows|]. intros fl.
    apply appends_bind; [by apply appends_process_all|]. intros c'.
    case_bool_decide; [apply readonly_appends, readonly_ret|apply IH].
Qed.

Lemma appends_scrape_day E fuel root d : appends (scrape_day E fuel root d).
Proof.
  apply appends_paginate_from. intros. apply appends_scrape_process.
Qed.

Lemma appends_scrape_season E fuel root season : appends (scrape_season E fuel root season).
Proof.
  unfold scrape_season, get_daily_flights. apply appends_bind.
  - apply appends_paginate_from. intros. apply appends_scrape_process.
  - intros [a b]. apply readonly_appends, readonly_ret.
Qed.

Lemma appends_scrape_days E date_add fuel root today lbs f n :
  appends (scrape_days E date_add fuel root today lbs f n).
Proof.
  revert f n. induction lbs as [|lb lbs IH]; intros f n; simpl.
  - apply readonly_appends, readonly_ret.
  - apply appends_bind; [apply appends_scrape_day|]. intros [a b]. apply IH.
Qed.

Lemma appends_scrape_last_n_days E date_add fuel root today n :
  appends (scrape_last_n_days E date_add fuel root today n).
Proof.
  unfold scrape_last_n_days. apply appends_bind; [apply appends_scrape_days|].
  intros [a b]. apply readonly_appends, readonly_ret.
Qed.

Lemma appends_prefills api :
  appends (prefill_glider_models api) /\ appends (prefill_clubs api) /\
  appends (prefill_pilots api).
Proof.
  unfold prefill_glider_models, prefill_clubs, prefill_pilots.
  split_and!; apply appends_bind; try apply appends_requests_get_json;
    intros data; apply appends_executemany_gen; intros x;
    [unfold glider_model_params|unfold club_params|unfold pilot_params];
    solve_appends.
Qed.

(** ** Scraping again *)

Lemma flight_known_grows s s' fd : flight_known s fd -> db_grows s s' -> flight_known s' fd.
Proof.
  intros (v & r & Hv & Hn & Hr & Hc) Hg. destruct (Hg "flight") as [l Hl].
  exists v, r. split_and!; try done. rewrite Hl. apply elem_of_app. by left.
Qed.

Lemma scrape_process_known E root sc fd c s :
  flight_known s fd -> scrape_process E root sc fd c s = (inr c, s).
Proof.
  intros (v & r & Hv & Hn & Hr & Hc).
  destruct (find_row_elem [("ladder_id", v)] (tbl s "flight") r Hr) as [r0 Hf];
    [by apply row_matches_single|].
  unfold scrape_process. by rewrite (insert_bga_flight_found E root fd sc s v r0 Hv Hf).
Qed.

Lemma insert_bga_flight_no_id E root fd sc s :
  fd !! "FlightID" = None -> insert_bga_flight E root fd sc s = (inl (KeyError "FlightID"), s).
Proof.
  intros H. unfold insert_bga_flight. cbv zeta.
  apply (bind_inl _ _ s (KeyError "FlightID") s). unfold getitem. by rewrite H.
Qed.

Lemma scrape_process_count E root sc fd c s c' s' :
  scrape_process E root sc fd c s = (inr c', s') -> c' = c \/ c' = S c.
Proof.
  unfold scrape_process.
  destruct (insert_bga_flight E root fd sc s) as [[[] | ?] s1]; intros H;
    inversion H; auto.
Qed.

Lemma scrape_process_first E root sc fd c s c' s' :
  fd !! "FlightID" <> Some VNull -> scrape_process E root sc fd c s = (inr c', s') ->
  flight_known s' fd.
Proof.
  intros Hnn H. unfold scrape_process in H.
  destruct (insert_bga_flight E root fd sc s) as [[e|[]] s1] eqn:Hi.
  - destruct e; try discriminate H. injection H as <- <-.
    destruct (fd !! "FlightID") as [v|] eqn:Hv.
    + apply (insert_bga_flight_existing_inv E root fd sc s v s1 Hv) in Hi as (r0 & Hf & ->).
      apply find_row_some in Hf as [Hin Hm]. apply row_matches_single in Hm as [Hc Hn].
      by exists v, r0.
    + rewrite insert_bga_flight_no_id in Hi by done. discriminate Hi.
  - injection H as <- <-. apply insert_bga_flight_appends in Hi as (v & r' & Hv & _ & Hl & Hc).
    exists v, r'. split_and!; try done.
    + intros ->. by apply Hnn.
    + rewrite Hl. apply elem_of_app. right. by left.
Qed.

Lemma process_all_count E root sc fl c s c' s' :
  process_all (scrape_process E root) sc fl c s = (inr c', s') -> c' <= c + length fl.
Proof.
  revert c s. induction fl as [|fd fl IH]; intros c s H.
  - injection H as <- <-. simpl. lia.
  - cbn [process_all] in H. unfold mbind at 1, M_bind at 1 in H.
    destruct (scrape_process E root sc fd c s) as [[e|c1] s1] eqn:Hp; [discriminate H|].
    apply IH in H. apply scrape_process_count in Hp. simpl. lia.
Qed.

Lemma process_all_first E root sc fl c s c' s' :
  (forall fd, fd ∈ fl -> fd !! "FlightID" <> Some VNull) ->
  process_all (scrape_process E root) sc fl c s = (inr c', s') ->
  forall fd, fd ∈ fl -> flight_known s' fd.
Proof.
  revert c s. induction fl as [|fd fl IH]; intros c s Hnn H.
  - intros fd Hfd. by apply not_elem_of_nil in Hfd.
  - cbn [process_all] in H. unfold mbind at 1, M_bind at 1 in H.
    destruct (scrape_process E root sc fd c s) as [[e|c1] s1] eqn:Hp; [discriminate H|].
    intros fd' Hfd'. apply elem_of_cons in Hfd' as [->|Hfd'].
    + eapply flight_known_grows; [eapply scrape_process_first; [apply Hnn; left|exact Hp]|].
      eapply appends_eq; [|exact H].
      apply appends_process_all. intros. apply appends_scrape_process.
    + eapply IH; [intros; apply Hnn; by right|exact H|exact Hfd'].
Qed.

Lemma process_all_known E root sc fl c s :
  (forall fd, fd ∈ fl -> flight_known s fd) ->
  process_all (scrape_process E root) sc fl c s = (inr c, s).
Proof.
  induction fl as [|fd fl IH]; intros Hk; [reflexivity|].
  cbn [process_all]. rewrite (bind_inr _ _ s c s) by (apply scrape_process_known, Hk; left).
  apply IH. intros. apply Hk. by right.
Qed.

Lemma requests_get_rows_inv E url params s fl s0 :
  requests_get_rows E url params s = (inr fl, s0) ->
  http_rows E url params = Some fl /\
  s0 = mkSt (st_db s) (st_fs s) (st_log s ++ [(url, params)]).
Proof.
  unfold requests_get_rows, log_request, modify, mbind, M_bind. simpl.
  destruct (http_rows E url params); intros H; inversion H; auto.
Qed.

Lemma paginate_from_count E root : forall fuel page_size params page tot c s tot' c' s',
  paginate_from E fuel (scrape_process E root) page_size params page tot c s =
    (inr (tot', c'), s') ->
  c' + tot <= c + tot'.
Proof.
  induction fuel as [|fuel IH]; intros page_size params page tot c s tot' c' s' H;
    [discriminate H|].
  cbn [paginate_from] in H. cbv zeta in H.
  unfold mbind at 1, M_bind at 1 in H.
  match type of H with context [requests_get_rows ?a ?b ?c ?d] =>
    destruct (requests_get_rows a b c d) as [[e|fl] s0] eqn:Hq; [discriminate H|] end.
  unfold mbind at 1, M_bind at 1 in H.
  match type of H with context [process_all ?a ?b ?c ?d ?e] =>
    destruct (process_all a b c d e) as [[e'|c1] s1] eqn:Hp; [discriminate H|] end.
  apply process_all_count in Hp.
  case_bool_decide.
  - injection H as <- <- <-. lia.
  - apply IH in H. lia.
Qed.

Lemma paginate_from_replay E root : listing_ids_nonnull E ->
  forall fuel page_size params page tot c s tot' c' s',
  paginate_from E fuel (scrape_process E root) page_size params page tot c s =
    (inr (tot', c'), s') ->
  forall u c0, db_grows s' u ->
  exists u', paginate_from E fuel (scrape_process E root) page_size params page tot c0 u =
      (inr (tot', c0), u') /\ st_db u' = st_db u /\ st_fs u' = st_fs u.
Proof.
  intros Hnn fuel. induction fuel as [|fuel IH];
    intros page_size params page tot c s tot' c' s' H u c0 Hu; [discriminate H|].
  cbn [paginate_from] in H |- *. cbv zeta in H |- *.
  set (ps := dict_set "page" (VInt (Z.of_nat page)) params) in *.
  unfold mbind at 1, M_bind at 1 in H.
  destruct (requests_get_rows E daily_scores_url ps s) as [[e|fl] s0] eqn:Hq; [discriminate H|].
  apply requests_get_rows_inv in Hq as [Hr ->].
  unfold mbind at 1, M_bind at 1 in H.
  match type of H with context [process_all ?a ?b ?c ?d ?e] =>
    destruct (process_all a b c d e) as [[e'|c1] s1] eqn:Hp; [discriminate H|] end.
  cbv beta in H.
  assert (Hk : forall fd, fd ∈ fl -> flight_known s1 fd).
  { eapply process_all_first; [|exact Hp]. intros fd Hfd. by apply (Hnn _ _ _ _ Hr). }
  set (u0 := mkSt (st_db u) (st_fs u) (st_log u ++ [(daily_scores_url, ps)])).
  assert (Hu0 : db_grows s' u0).
  { eapply db_grows_trans; [exact Hu|]. by apply db_grows_same_db. }
  rewrite (bind_inr _ _ u fl u0) by (by apply requests_get_rows_ok).
  assert (Hs1 : db_grows s1 s').
  { case_bool_decide.
    - injection H as _ _ <-. apply db_grows_refl.
    - eapply appends_eq; [|exact H]. apply appends_paginate_from.
      intros. apply appends_scrape_process. }
  rewrite (bind_inr _ _ u0 c0 u0); cycle 1.
  { apply process_all_known. intros fd Hfd. eapply flight_known_grows; [by apply Hk|].
    by apply (db_grows_trans _ s'). }
  case_bool_decide.
  - injection H as <- <- <-. by exists u0.
  - destruct (IH _ _ _ _ _ _ _ _ _ H u0 c0 Hu0) as (u' & Hrun & Hdb & Hfs).
    exists u'. split; [exact Hrun|]. by rewrite Hdb, Hfs.
Qed.

Lemma scrape_day_replay E fuel root d s tot nw s' :
  listing_ids_nonnull E -> scrape_day E fuel root d s = (inr (tot, nw), s') ->
  forall u, db_grows s' u ->
  exists u', scrape_day E fuel root d u = (inr (tot, 0), u') /\
    st_db u' = st_db u /\ st_fs u' = st_fs u.
Proof.
  intros Hnn H u Hu. unfold scrape_day, get_daily_flights in *.
  eapply paginate_from_replay; [exact Hnn|exact H|exact Hu].
Qed.

Lemma scrape_days_replay E date_add fuel root today : listing_ids_nonnull E ->
  forall lbs f n s f' n' s',
  scrape_days E date_add fuel root today lbs f n s = (inr (f', n'), s') ->
  forall u f0 n0, db_grows s' u ->
  exists f'' u', scrape_days E date_add fuel root today lbs f0 n0 u = (inr (f'', n0), u') /\
    st_db u' = st_db u /\ st_fs u' = st_fs u.
Proof.
  intros Hnn lbs. induction lbs as [|lb lbs IH]; intros f n s f' n' s' H u f0 n0 Hu.
  - exists f0, u. done.
  - cbn [scrape_days] in H |- *. unfold mbind at 1, M_bind at 1 in H.
    destruct (scrape_day E fuel root (date_add today (- Z.of_nat lb)%Z) s)
      as [[e|[a b]] s1] eqn:Hd; [discriminate H|].
    assert (Hs1 : db_grows s1 u).
    { eapply db_grows_trans; [|exact Hu]. eapply appends_eq; [|exact H].
      apply appends_scrape_days. }
    destruct (scrape_day_replay _ _ _ _ _ _ _ _ Hnn Hd u Hs1) as (u1 & Hrun1 & Hdb1 & Hfs1).
    rewrite (bind_inr _ _ u (a, 0) u1 Hrun1).
    destruct (IH _ _ _ _ _ _ H u1 (f0 + a) n0) as (f'' & u' & Hrun & Hdb & Hfs).
    { eapply db_grows_trans; [exact Hu|]. by apply db_grows_same_db. }
    cbv beta iota. rewrite Nat.add_0_r. exists f'', u'.
    split; [exact Hrun|]. by rewrite Hdb, Hfs.
Qed.

(** After a successful [scrape_day], the number of new flights is at most
    the number of records found: each record counts as new at most once. *)
Theorem scrape_day_new_le_found E fuel root d s tot nw s' :
  scrape_day E fuel root d s = (inr (tot, nw), s') -> nw <= tot.
Proof.
  intros H. unfold scrape_day, get_daily_flights in H.
  apply paginate_from_count in H. lia.
Qed.

(** Scraping the same day again, against the same server answers, finds the
    same number of records, counts none as new, and leaves the database and
    the archive as they were: only its requests are recorded.  This needs
    the listing's [FlightID]s to be non-null. *)
Theorem scrape_day_rescrape E fuel root d s tot nw s' :
  listing_ids_nonnull E ->
  scrape_day E fuel root d s = (inr (tot, nw), s') ->
  exists s'', scrape_day E fuel root d s' = (inr (tot, 0), s'') /\
    st_db s'' = st_db s' /\ st_fs s'' = st_fs s'.
Proof.
  intros Hnn H. eapply scrape_day_replay; [exact Hnn|exact H|apply db_grows_refl].
Qed.

(** Scraping a season again, against the same server answers, succeeds and
    leaves the database and the archive as they were. *)
Theorem scrape_season_rescrape E fuel root season s s' :
  listing_ids_nonnull E ->
  scrape_season E fuel root season s = (inr tt, s') ->
  exists s'', scrape_season E fuel root season s' = (inr tt, s'') /\
    st_db s'' = st_db s' /\ st_fs s'' = st_fs s'.
Proof.
  intros Hnn H. unfold scrape_season, get_daily_flights in *.
  unfold mbind at 1, M_bind at 1 in H.
  match type of H with context [paginate_from ?a ?b ?c ?d ?e ?f ?g ?h ?i] =>
    destruct (paginate_from a b c d e f g h i) as [[e'|[tot nw]] s1] eqn:Hp;
      [discriminate H|] end.
  injection H as <-.
  destruct (paginate_from_replay _ _ Hnn _ _ _ _ _ _ _ _ _ _ Hp s1 0 (db_grows_refl s1))
    as (u' & Hrun & Hdb & Hfs).
  exists u'. rewrite (bind_inr _ _ _ _ _ Hrun). by split.
Qed.

(** Scraping the last [n] days again, against the same server answers,
    succeeds and leaves the database and the archive as they were. *)
Theorem scrape_last_n_days_rescrape E date_add fuel root today n s s' :
  listing_ids_nonnull E ->
  scrape_last_n_days E date_add fuel root today n s = (inr tt, s') ->
  exists s'', scrape_last_n_days E date_add fuel root today n s' = (inr tt, s'') /\
    st_db s'' = st_db s' /\ st_fs s'' = st_fs s'.
Proof.
  intros Hnn H. unfold scrape_last_n_days in *.
  unfold mbind at 1, M_bind at 1 in H.
  match type of H with context [scrape_days ?a ?b ?c ?d ?e ?f ?g ?h ?i] =>
    destruct (scrape_days a b c d e f g h i) as [[e'|[f' n']] s1] eqn:Hp;
      [discriminate H|] end.
  injection H as <-.
  destruct (scrape_days_replay _ _ _ _ _ Hnn _ _ _ _ _ _ _ Hp s1 0 0 (db_grows_refl s1))
    as (f'' & u' & Hrun & Hdb & Hfs).
  exists u'. rewrite (bind_inr _ _ _ _ _ Hrun). by split.
Qed.

(** [scrape_season] pages through the listing filtered by season alone: it
    requests [rows=100], [Season=season] and the page number, with no month
    or day filter, and feeds every record to the day scrape's callback. *)
Theorem scrape_season_sweep E fuel root season pages s :
  (forall j fl, pages !! j = Some fl ->
     http_rows E daily_scores_url
       [("rows", VInt 100); ("Season", VInt season); ("page", VInt (Z.of_nat (S j)))]
     = Some fl) ->
  (forall j fl, pages !! j = Some fl -> S j < length pages -> length fl = 100) ->
  (forall fl, last pages = Some fl -> length fl < 100) ->
  pages <> [] -> length pages <= fuel ->
  scrape_season E fuel root season s =
    (spec_page_sweep E (scrape_process E root) [("rows", VInt 100); ("Season", VInt season)]
       pages 1 0;; mret tt) s.
Proof.
  intros Hget Hfull Hlast Hne Hfuel. unfold scrape_season, get_daily_flights.
  unfold mbind at 1, M_bind at 1.
  rewrite (paginate_from_sweep E (scrape_process E root) 100
             [("rows", VInt 100); ("Season", VInt season)] pages fuel); try done.
  - unfold mbind, M_bind. by destruct (spec_page_sweep _ _ _ _ _ _ _) as [[e|c] s1].
  - intros i fl Hi Hlt. rewrite (Hfull i fl Hi Hlt). reflexivity.
  - intros fl Hl. specialize (Hlast fl Hl). lia.
Qed.

(** ** Prefilling the reference tables *)

Lemma requests_get_json_ok api url data s :
  api url = Some data ->
  requests_get_json api url s = (inr data, mkSt (st_db s) (st_fs s) (st_log s ++ [(url, [])])).
Proof. intros H. unfold requests_get_json, log_request, modify, mbind, M_bind. by rewrite H. Qed.

Lemma executemany_gen_run t mk (R : row -> gmap string val -> Prop) data s s' :
  (forall x s0 r s1, mk x s0 = (inr r, s1) -> s1 = s0 /\ R r x) ->
  executemany_gen t mk data s = (inr tt, s') ->
  exists l, tbl s' t = tbl s t ++ l /\
    Forall2 (fun r' x => exists r, R r x /\ forall c, c <> "id" -> col r' c = col r c) l data /\
    (forall t', t <> t' -> tbl s' t' = tbl s t').
Proof.
  intros Hmk. revert s. induction data as [|x data IH]; intros s H.
  - injection H as <-. exists []. split_and!; [by rewrite app_nil_r|constructor|done].
  - cbn [executemany_gen] in H. unfold mbind at 1, M_bind at 1 in H.
    destruct (mk x s) as [[e|r] s0] eqn:Hm; [discriminate H|].
    apply Hmk in Hm as [-> HR].
    unfold mbind at 1, M_bind at 1 in H.
    destruct (db_insert t r s) as [[e|[]] s1] eqn:Hi; [discriminate H|].
    apply db_insert_last in Hi as (r' & Hs1 & Hr' & Hother).
    destruct (IH s1 H) as (l & Hl & Hall & Hoth).
    exists (r' :: l). split_and!.
    + by rewrite Hl, Hs1, <- app_assoc.
    + constructor; [|exact Hall]. exists r. split; [exact HR|].
      intros c Hc. subst r'. by apply col_with_rowid.
    + intros t' Ht'. by rewrite Hoth, Hother.
Qed.

Lemma elem_of_Forall2_r {A B} (P : A -> B -> Prop) l k y :
  Forall2 P l k -> y ∈ k -> exists x, x ∈ l /\ P x y.
Proof.
  intros H Hy. apply list_elem_of_lookup in Hy as [i Hi].
  destruct (Forall2_lookup_r _ _ _ _ _ H Hi) as (x & Hx & HP).
  exists x. split; [by eapply list_elem_of_lookup_2|exact HP].
Qed.

Lemma pilot_params_ok p s0 r s1 :
  pilot_params p s0 = (inr r, s1) ->
  s1 = s0 /\ p !! "ForeName" = Some (col r "forename") /\
  p !! "Surname" = Some (col r "surname") /\ p !! "ID" = Some (col r "ladder_id").
Proof.
  intros H. unfold pilot_params, mbind, M_bind in H. run_hyp H. readonly_steps.
  injection H; intros; subst. apply getitem_ok in E, E0, E1. done.
Qed.

Lemma club_params_ok c s0 r s1 :
  club_params c s0 = (inr r, s1) ->
  s1 = s0 /\ c !! "Name" = Some (col r "club_name") /\
  c !! "University" = Some (col r "is_university") /\ c !! "ID" = Some (col r "ladder_code").
Proof.
  intros H. unfold club_params, mbind, M_bind in H. run_hyp H. readonly_steps.
  injection H; intros; subst. apply getitem_ok in E, E0, E1. done.
Qed.

Lemma glider_model_params_ok g s0 r s1 :
  glider_model_params g s0 = (inr r, s1) ->
  s1 = s0 /\ g !! "GliderType" = Some (col r "model_name") /\
  g !! "Seats" = Some (col r "seats") /\ g !! "Vintage" = Some (col r "vintage") /\
  g !! "Turbo" = Some (col r "turbo") /\ g !! "Handicap" = Some (col r "handicap") /\
  g !! "GliderID" = Some (col r "ladder_id").
Proof.
  intros H. unfold glider_model_params, mbind, M_bind in H. run_hyp H. readonly_steps.
  injection H; intros; subst. apply getitem_ok in E, E0, E1, E2, E3, E4. done.
Qed.

Lemma get_or_create_glider_model_found name gid s r0 :
  find_row [("model_name", name)] (tbl s "glider_model") = Some r0 ->
  get_or_create_glider_model name gid s = (inr (col r0 "id"), s).
Proof.
  intros Hf. unfold get_or_create_glider_model.
  rewrite (bind_inr _ _ s (Some (col r0 "id")) s); [reflexivity|].
  unfold select_id. by rewrite Hf.
Qed.

Lemma get_or_create_glider_model_new name gid s :
  find_row [("model_name", name)] (tbl s "glider_model") = None ->
  get_or_create_glider_model name gid s =
    (db_insert "glider_model" [("model_name", name); ("ladder_id", gid)];;
     select_id "glider_model" [("ladder_id", gid)] ≫= fetch_id) s.
Proof.
  intros Hf. unfold get_or_create_glider_model.
  rewrite (bind_inr _ _ s None s); [reflexivity|].
  unfold select_id. by rewrite Hf.
Qed.

(** After [prefill_pilots] succeeds, the pilot table is the old one followed
    by one row per record of the [ActivePilots] answer, in order, holding its
    [ForeName], [Surname] and [ID]; no other table changes.  Resolving a
    prefilled pilot (non-NULL fields) then finds a stored row with its fields
    and returns that row's id without writing anything. *)
Theorem prefill_pilots_rows api data s s' :
  api "https://www.bgaladder.net/api/ActivePilots" = Some data ->
  prefill_pilots api s = (inr tt, s') ->
  (exists l, tbl s' "pilot" = tbl s "pilot" ++ l /\
     Forall2 (fun r p => p !! "ForeName" = Some (col r "forename") /\
                         p !! "Surname" = Some (col r "surname") /\
                         p !! "ID" = Some (col r "ladder_id")) l data /\
     (forall t, t <> "pilot" -> tbl s' t = tbl s t)) /\
  (forall p f sn l, p ∈ data ->
     p !! "ForeName" = Some f -> p !! "Surname" = Some sn -> p !! "ID" = Some l ->
     f <> VNull -> sn <> VNull -> l <> VNull ->
     exists r, r ∈ tbl s' "pilot" /\ col r "forename" = f /\ col r "surname" = sn /\
       col r "ladder_id" = l /\ get_or_create_pilot f sn l s' = (inr (col r "id"), s')).
Proof.
  intros Hapi H. unfold prefill_pilots in H.
  rewrite (bind_inr _ _ _ _ _ (requests_get_json_ok _ _ _ s Hapi)) in H.
  destruct (executemany_gen_run _ _ (fun r p => p !! "ForeName" = Some (col r "forename") /\
              p !! "Surname" = Some (col r "surname") /\ p !! "ID" = Some (col r "ladder_id"))
              _ _ _ pilot_params_ok H) as (l & Hl & Hall & Hoth).
  assert (Hall' : Forall2 (fun r p => p !! "ForeName" = Some (col r "forename") /\
                         p !! "Surname" = Some (col r "surname") /\
                         p !! "ID" = Some (col r "ladder_id")) l data).
  { eapply Forall2_impl; [exact Hall|]. intros r' p (r & (H1 & H2 & H3) & Hc).
    rewrite !Hc by done. done. }
  split.
  - exists l. split_and!; [exact Hl|exact Hall'|]. intros t Ht. apply Hoth. congruence.
  - intros p f sn lid Hp Hf Hsn Hlid Hfn Hsnn Hln.
    destruct (elem_of_Forall2_r _ _ _ _ Hall' Hp) as (r' & Hr' & H1 & H2 & H3).
    assert (Hin : r' ∈ tbl s' "pilot") by (rewrite Hl; apply elem_of_app; by right).
    destruct (find_row_elem (pilot_key f sn lid) (tbl s' "pilot") r' Hin) as [r0 Hf0].
    { apply row_matches_pilot. split_and!; congruence. }
    pose proof (find_row_some _ _ _ Hf0) as [Hin0 Hm0].
    apply row_matches_pilot in Hm0 as (Hc1 & Hc2 & Hc3 & _).
    exists r0. split_and!; try done. by apply get_or_create_pilot_found.
Qed.

(** After [prefill_clubs] succeeds, the club table is the old one followed
    by one row per record of the [Clubs] answer, in order, holding its
    [Name], [University] and [ID]; no other table changes.  Resolving a
    prefilled club code (non-NULL) then finds a stored row with that code and
    returns its id without writing anything. *)
Theorem prefill_clubs_rows api data s s' :
  api "https://www.bgaladder.net/api/Clubs" = Some data ->
  prefill_clubs api s = (inr tt, s') ->
  (exists l, tbl s' "club" = tbl s "club" ++ l /\
     Forall2 (fun r c => c !! "Name" = Some (col r "club_name") /\
                         c !! "University" = Some (col r "is_university") /\
                         c !! "ID" = Some (col r "ladder_code")) l data /\
     (forall t, t <> "club" -> tbl s' t = tbl s t)) /\
  (forall c code, c ∈ data -> c !! "ID" = Some code -> code <> VNull ->
     exists r, r ∈ tbl s' "club" /\ col r "ladder_code" = code /\
       get_or_create_club code s' = (inr (col r "id"), s')).
Proof.
  intros Hapi H. unfold prefill_clubs in H.
  rewrite (bind_inr _ _ _ _ _ (requests_get_json_ok _ _ _ s Hapi)) in H.
  destruct (executemany_gen_run _ _ (fun r c => c !! "Name" = Some (col r "club_name") /\
              c !! "University" = Some (col r "is_university") /\
              c !! "ID" = Some (col r "ladder_code"))
              _ _ _ club_params_ok H) as (l & Hl & Hall & Hoth).
  assert (Hall' : Forall2 (fun r c => c !! "Name" = Some (col r "club_name") /\
                         c !! "University" = Some (col r "is_university") /\
                         c !! "ID" = Some (col r "ladder_code")) l data).
  { eapply Forall2_impl; [exact Hall|]. intros r' c (r & (H1 & H2 & H3) & Hc).
    rewrite !Hc by done. done. }
  split.
  - exists l. split_and!; [exact Hl|exact Hall'|]. intros t Ht. apply Hoth. congruence.
  - intros c code Hc Hcode Hn.
    destruct (elem_of_Forall2_r _ _ _ _ Hall' Hc) as (r' & Hr' & _ & _ & H3).
    assert (Hin : r' ∈ tbl s' "club") by (rewrite Hl; apply elem_of_app; by right).
    destruct (find_row_elem [("ladder_code", code)] (tbl s' "club") r' Hin) as [r0 Hf0].
    { apply row_matches_single. split; congruence. }
    pose proof (find_row_some _ _ _ Hf0) as [Hin0 Hm0].
    apply row_matches_single in Hm0 as [Hc0 _].
    exists r0. split_and!; try done. by apply get_or_create_club_found.
Qed.

(** After [prefill_glider_models] succeeds, the glider model table is the
    old one followed by one row per record of the [Gliders] answer, in
    order, holding its [GliderType], [Seats], [Vintage], [Turbo], [Handicap]
    and [GliderID]; no other table changes.  Resolving a prefilled model
    name (non-NULL) then finds a stored row with that name and returns its
    id without writing anything, whatever ladder id is passed. *)
Theorem prefill_glider_models_rows api data s s' :
  api "https://www.bgaladder.net/api/Gliders" = Some data ->
  prefill_glider_models api s = (inr tt, s') ->
  (exists l, tbl s' "glider_model" = tbl s "glider_model" ++ l /\
     Forall2 (fun r g => g !! "GliderType" = Some (col r "model_name") /\
                         g !! "Seats" = Some (col r "seats") /\
                         g !! "Vintage" = Some (col r "vintage") /\
                         g !! "Turbo" = Some (col r "turbo") /\
                         g !! "Handicap" = Some (col r "handicap") /\
                         g !! "GliderID" = Some (col r "ladder_id")) l data /\
     (forall t, t <> "glider_model" -> tbl s' t = tbl s t)) /\
  (forall g name gid, g ∈ data -> g !! "GliderType" = Some name -> name <> VNull ->
     exists r, r ∈ tbl s' "glider_model" /\ col r "model_name" = name /\
       get_or_create_glider_model name gid s' = (inr (col r "id"), s')).
Proof.
  intros Hapi H. unfold prefill_glider_models in H.
  rewrite (bind_inr _ _ _ _ _ (requests_get_json_ok _ _ _ s Hapi)) in H.
  destruct (executemany_gen_run _ _ (fun r g => g !! "GliderType" = Some (col r "model_name") /\
              g !! "Seats" = Some (col r "seats") /\ g !! "Vintage" = Some (col r "vintage") /\
              g !! "Turbo" = Some (col r "turbo") /\ g !! "Handicap" = Some (col r "handicap") /\
              g !! "GliderID" = Some (col r "ladder_id"))
              _ _ _ glider_model_params_ok H) as (l & Hl & Hall & Hoth).
  assert (Hall' : Forall2 (fun r g => g !! "GliderType" = Some (col r "model_name") /\
                         g !! "Seats" = Some (col r "seats") /\
                         g !! "Vintage" = Some (col r "vintage") /\
                         g !! "Turbo" = Some (col r "turbo") /\
                         g !! "Handicap" = Some (col r "handicap") /\
                         g !! "GliderID" = Some (col r "ladder_id")) l data).
  { eapply Forall2_impl; [exact Hall|]. intros r' g (r & HR & Hc).
    rewrite !Hc by done. exact HR. }
  split.
  - exists l. split_and!; [exact Hl|exact Hall'|]. intros t Ht. apply Hoth. congruence.
  - intros g name gid Hg Hname Hn.
    destruct (elem_of_Forall2_r _ _ _ _ Hall' Hg) as (r' & Hr' & H1 & _).
    assert (Hin : r' ∈ tbl s' "glider_model") by (rewrite Hl; apply elem_of_app; by right).
    destruct (find_row_elem [("model_name", name)] (tbl s' "glider_model") r' Hin) as [r0 Hf0].
    { apply row_matches_single. split; congruence. }
    pose proof (find_row_some _ _ _ Hf0) as [Hin0 Hm0].
    apply row_matches_single in Hm0 as [Hc0 _].
    exists r0. split_and!; try done. by apply get_or_create_glider_model_found.
Qed.

(** ** Resolving entities: NULL keys, gliders and glider models *)

Lemma find_row_null c rows : find_row [(c, VNull)] rows = None.
Proof.
  induction rows as [|r rows IH]; cbn [find_row]; [done|].
  destruct (row_matches [(c, VNull)] r) eqn:Hm; [|done].
  apply row_matches_single in Hm. naive_solver.
Qed.

Lemma find_row_pilot_null f sn rows : find_row (pilot_key f sn VNull) rows = None.
Proof.
  induction rows as [|r rows IH]; cbn [find_row]; [done|].
  destruct (row_matches (pilot_key f sn VNull) r) eqn:Hm; [|done].
  apply row_matches_pilot in Hm. naive_solver.
Qed.

(** The insert-then-reselect branch of the resolvers on a NULL key: the
    insert succeeds, the reselect finds nothing, and [fetchone()[0]] fails. *)
Lemma insert_reselect_null t r c s :
  unique_cols t = ["id"; c] -> c <> "id" -> has_rowid t = true ->
  col r "id" = VNull -> col r c = VNull ->
  (db_insert t r;; select_id t [(c, VNull)] ≫= fetch_id) s =
    (inl TypeError, set_tbl t (tbl s t ++ [with_rowid t (tbl s t) r]) s).
Proof.
  intros Hu Hc Hrow Hid Hcv.
  assert (Hnv : violates_unique t (tbl s t) (with_rowid t (tbl s t) r) = false)
    by (apply (violates_unique_fresh _ _ _ c VNull); try done; apply find_row_null).
  unfold mbind at 1, M_bind at 1. unfold db_insert at 1. cbv zeta.
  rewrite Hnv. unfold mbind, M_bind, select_id. by rewrite find_row_null.
Qed.

(** A NULL ladder key makes the resolvers fail with [TypeError] after their
    insert: [get_or_create_pilot] with a NULL ladder id, [get_or_create_club]
    with a NULL code and [get_or_create_glider] with a NULL registration
    always do, and [get_or_create_glider_model] with a NULL ladder id does
    whenever no stored model has the given name. *)
Theorem get_or_create_null_key :
  (forall f sn s, get_or_create_pilot f sn VNull s =
     (inl TypeError, set_tbl "pilot" (tbl s "pilot" ++
        [with_rowid "pilot" (tbl s "pilot") (pilot_key f sn VNull)]) s)) /\
  (forall s, get_or_create_club VNull s =
     (inl TypeError, set_tbl "club" (tbl s "club" ++
        [with_rowid "club" (tbl s "club") [("ladder_code", VNull)]]) s)) /\
  (forall m s, get_or_create_glider VNull m s =
     (inl TypeError, set_tbl "glider" (tbl s "glider" ++
        [with_rowid "glider" (tbl s "glider") [("reg", VNull); ("model", m)]]) s)) /\
  (forall name s, find_row [("model_name", name)] (tbl s "glider_model") = None ->
     get_or_create_glider_model name VNull s =
     (inl TypeError, set_tbl "glider_model" (tbl s "glider_model" ++
        [with_rowid "glider_model" (tbl s "glider_model")
           [("model_name", name); ("ladder_id", VNull)]]) s)).
Proof.
  split_and!.
  - intros f sn s. rewrite get_or_create_pilot_new by apply find_row_pilot_null.
    by apply insert_reselect_null.
  - intros s. rewrite get_or_create_club_new by apply find_row_null.
    by apply insert_reselect_null.
  - intros m s. unfold get_or_create_glider.
    rewrite (bind_inr _ _ s None s); [|unfold select_id; by rewrite find_row_null].
    by apply insert_reselect_null.
  - intros name s Hf. rewrite get_or_create_glider_model_new by exact Hf.
    by apply insert_reselect_null.
Qed.

(** A listing record for a new flight whose [PilotID] is JSON null makes the
    ingestion fail with [TypeError] (the pilot cannot be resolved), and the
    day or season scrape's callback passes the failure on. *)
Theorem insert_bga_flight_null_pilot E root fd sc c s v f sn :
  fd !! "FlightID" = Some v -> find_row [("ladder_id", v)] (tbl s "flight") = None ->
  fd !! "Forename" = Some f -> fd !! "Surname" = Some sn -> fd !! "PilotID" = Some VNull ->
  exists s', insert_bga_flight E root fd sc s = (inl TypeError, s') /\
    scrape_process E root sc fd c s = (inl TypeError, s').
Proof.
  intros Hv Hnew Hf Hsn Hp.
  assert (Hrun : insert_bga_flight E root fd sc s =
    (inl TypeError, set_tbl "pilot" (tbl s "pilot" ++
        [with_rowid "pilot" (tbl s "pilot") (pilot_key f sn VNull)]) s)).
  { unfold insert_bga_flight. cbv zeta.
    rewrite (bind_inr _ _ _ _ _ (getitem_some _ _ _ s Hv)). cbv beta.
    rewrite (bind_inr _ _ s None s); [|unfold select_id; by rewrite Hnew]. cbv beta iota.
    rewrite (bind_inr _ _ _ _ _ (getitem_some _ _ _ s Hf)). cbv beta.
    rewrite (bind_inr _ _ _ _ _ (getitem_some _ _ _ s Hsn)). cbv beta.
    rewrite (bind_inr _ _ _ _ _ (getitem_some _ _ _ s Hp)). cbv beta.
    apply bind_inl. rewrite get_or_create_pilot_new by apply find_row_pilot_null.
    by apply insert_reselect_null. }
  eexists. split; [exact Hrun|]. unfold scrape_process. by rewrite Hrun.
Qed.

Lemma get_or_create_glider_found reg m s r0 :
  find_row [("reg", reg)] (tbl s "glider") = Some r0 ->
  get_or_create_glider reg m s = (inr (col r0 "id"), s).
Proof.
  intros Hf. unfold get_or_create_glider.
  rewrite (bind_inr _ _ s (Some (col r0 "id")) s); [reflexivity|].
  unfold select_id. by rewrite Hf.
Qed.

(** For a non-NULL registration over distinct stored registrations,
    [get_or_create_glider] always returns an id, appending at most one row,
    which holds the registration and the given model; a later call for the
    same registration returns the same id and changes nothing, whatever
    model it passes (the stored model is never updated); exactly one glider
    row carries the registration. *)
Theorem get_or_create_glider_stable reg m1 m2 s :
  reg <> VNull ->
  NoDup (filter (fun x => x <> VNull) (map (fun r => col r "reg") (tbl s "glider"))) ->
  exists id s1,
    get_or_create_glider reg m1 s = (inr id, s1) /\
    get_or_create_glider reg m2 s1 = (inr id, s1) /\
    length (filter (fun r => col r "reg" = reg) (tbl s1 "glider")) = 1 /\
    (s1 = s \/
     s1 = set_tbl "glider"
            (tbl s "glider" ++ [with_rowid "glider" (tbl s "glider") [("reg", reg); ("model", m1)]])
            s).
Proof.
  intros Hreg Hnd.
  destruct (find_row [("reg", reg)] (tbl s "glider")) as [r0|] eqn:Hfr.
  - exists (col r0 "id"), s. rewrite !(get_or_create_glider_found _ _ _ _ Hfr).
    split_and!; [done|done| |by left].
    apply find_row_some in Hfr as [Hin Hm]. apply row_matches_single in Hm as [Hc0 _].
    pose proof (filter_col_le1 _ _ _ Hnd Hreg). pose proof (filter_col_ge1 _ _ _ _ Hin Hc0).
    lia.
  - set (r' := with_rowid "glider" (tbl s "glider") [("reg", reg); ("model", m1)]).
    assert (Hnv : violates_unique "glider" (tbl s "glider") r' = false)
      by (apply (violates_unique_fresh _ _ _ "reg" reg); done).
    assert (Hrun : get_or_create_glider reg m1 s =
              (inr (col r' "id"), set_tbl "glider" (tbl s "glider" ++ [r']) s)).
    { unfold get_or_create_glider.
      rewrite (bind_inr _ _ s None s); [|unfold select_id; by rewrite Hfr].
      apply (insert_reselect "glider" [("reg", reg); ("model", m1)] "reg" reg);
        [by right; left|done|done|done|exact Hnv]. }
    exists (col r' "id"), (set_tbl "glider" (tbl s "glider" ++ [r']) s).
    assert (Hcr : col r' "reg" = reg) by (unfold r'; by rewrite col_with_rowid).
    split_and!; [exact Hrun| | |by right].
    + apply get_or_create_glider_found.
      rewrite tbl_set_tbl_eq, find_row_app_none by exact Hfr. cbn [find_row].
      by rewrite (proj2 (row_matches_single _ _ _)).
    + rewrite tbl_set_tbl_eq. by apply filter_col_new.
Qed.

(** Once [get_or_create_glider_model] has returned an id for a non-NULL
    model name, a later call with the same name returns the same id and
    changes nothing, whatever ladder id it passes; the first call either
    changed nothing or appended one row holding the name and its ladder id. *)
Theorem get_or_create_glider_model_stable name gid gid' s id s1 :
  name <> VNull ->
  get_or_create_glider_model name gid s = (inr id, s1) ->
  get_or_create_glider_model name gid' s1 = (inr id, s1) /\
  (s1 = s \/
   s1 = set_tbl "glider_model"
          (tbl s "glider_model" ++
           [with_rowid "glider_model" (tbl s "glider_model")
              [("model_name", name); ("ladder_id", gid)]]) s).
Proof.
  intros Hname H.
  destruct (find_row [("model_name", name)] (tbl s "glider_model")) as [r0|] eqn:Hfr.
  - rewrite (get_or_create_glider_model_found _ _ _ _ Hfr) in H. injection H as <- <-.
    split; [by apply get_or_create_glider_model_found|by left].
  - rewrite (get_or_create_glider_model_new _ _ _ Hfr) in H.
    set (r := [("model_name", name); ("ladder_id", gid)]) in *.
    set (r' := with_rowid "glider_model" (tbl s "glider_model") r) in *.
    destruct (violates_unique "glider_model" (tbl s "glider_model") r') eqn:Hnv.
    { rewrite (bind_inl _ _ s IntegrityError s) in H; [done|].
      unfold db_insert. cbv zeta. fold r r'. by rewrite Hnv. }
    destruct (decide (gid = VNull)) as [->|Hgid].
    { rewrite insert_reselect_null in H; done. }
    rewrite (insert_reselect "glider_model" r "ladder_id" gid) in H;
      [|by right; left|done|done|done|exact Hnv].
    fold r' in H. injection H as <- <-.
    split; [|by right].
    apply get_or_create_glider_model_found.
    rewrite tbl_set_tbl_eq, find_row_app_none by exact Hfr. cbn [find_row].
    rewrite (proj2 (row_matches_single _ _ _)); [done|].
    split; [|done]. unfold r'. by rewrite col_with_rowid.
Qed.

(** ** Consecutive task ids *)

Lemma task_count_insert_task fd s :
  task_ids_wf s -> turnpoint_codes fd <> [] ->
  task_count (insert_task fd s).2 = S (task_count s).
Proof.
  intros Hwf Hne. rewrite insert_task_run; simpl.
  set (n := task_count s).
  destruct (imap (task_row (Z.of_nat n)) (turnpoint_codes fd)) as [|r0 rows'] eqn:Hrows.
  { destruct (turnpoint_codes fd); [done|discriminate Hrows]. }
  assert (Hid : forall r, r ∈ r0 :: rows' -> col r "id" = VInt (Z.of_nat n)).
  { intros r Hr. rewrite <- Hrows in Hr. by apply elem_of_task_rows in Hr. }
  unfold task_count at 1. rewrite tbl_append_rows_eq, map_app, filter_app.
  apply (remove_dups_app_new _ _ (VInt (Z.of_nat n))).
  - intros Hin. apply list_elem_of_filter in Hin as [_ Hin].
    apply list_elem_of_fmap in Hin as (r & Hr & Hin).
    destruct (Hwf r Hin) as (z & Hz & Hlt). rewrite Hz in Hr.
    injection Hr as Hr. subst n. lia.
  - intros Hnil.
    assert (Hin : VInt (Z.of_nat n) ∈
                    filter (fun v => v <> VNull) (map (fun r => col r "id") (r0 :: rows'))).
    { apply list_elem_of_filter. split; [done|].
      apply list_elem_of_fmap. exists r0. split; [by rewrite Hid; [|left]|left]. }
    rewrite Hnil in Hin. by apply not_elem_of_nil in Hin.
  - intros y Hy. apply list_elem_of_filter in Hy as [_ Hy].
    apply list_elem_of_fmap in Hy as (r & -> & Hr). by apply Hid.
Qed.

(** Two tasks decomposed one after the other: when the first record has no
    turnpoint code, the second gets the same task id as the first (the
    first wrote no row to count); otherwise, over task ids [0 .. count-1],
    the second gets the first's id plus one. *)
Theorem insert_task_next_id fd1 fd2 s :
  (turnpoint_codes fd1 = [] ->
     (insert_task fd2 (insert_task fd1 s).2).1 = (insert_task fd1 s).1) /\
  (task_ids_wf s -> turnpoint_codes fd1 <> [] ->
     (insert_task fd2 (insert_task fd1 s).2).1 =
       inr (VInt (Z.of_nat (task_count s) + 1))).
Proof.
  split.
  - intros Hnil. rewrite !insert_task_run. simpl. rewrite Hnil. reflexivity.
  - intros Hwf Hne. rewrite (insert_task_run fd2). simpl.
    rewrite (task_count_insert_task fd1 s Hwf Hne). do 3 f_equal. lia.
Qed.

(** ** Prefill records with a missing key *)

Lemma executemany_gen_fails t mk (P : exn -> Prop) data x s :
  P IntegrityError ->
  (forall y s0 e s1, mk y s0 = (inl e, s1) -> P e) ->
  x ∈ data -> (forall s0, exists e s1, mk x s0 = (inl e, s1)) ->
  exists e s', executemany_gen t mk data s = (inl e, s') /\ P e.
Proof.
  intros HI HP. induction data as [|y data IH] in s |- *; intros Hx Hmk;
    [by apply not_elem_of_nil in Hx|].
  cbn [executemany_gen]. unfold mbind at 1, M_bind at 1.
  destruct (mk y s) as [[e|r] s1] eqn:Hy; [by eauto|].
  unfold mbind, M_bind. destruct (db_insert t r s1) as [[e|[]] s2] eqn:Hins.
  { exists e, s2. split; [done|]. unfold db_insert in Hins. cbv zeta in Hins.
    destruct (violates_unique _ _ _); inversion Hins; subst; exact HI. }
  apply elem_of_cons in Hx as [->|Hx].
  - destruct (Hmk s) as (e & s3 & H). congruence.
  - by apply IH.
Qed.

Ltac params_cases p :=
  repeat match goal with
  | |- context [p !! ?k] => destruct (p !! k)
  end; cbv [mbind M_bind mret M_ret raise]; simpl.

Lemma pilot_params_err p s0 e s1 : pilot_params p s0 = (inl e, s1) -> exists k, e = KeyError k.
Proof.
  unfold pilot_params, getitem. params_cases p; intros H; inversion H; subst; eauto.
Qed.

Lemma club_params_err c s0 e s1 : club_params c s0 = (inl e, s1) -> exists k, e = KeyError k.
Proof.
  unfold club_params, getitem. params_cases c; intros H; inversion H; subst; eauto.
Qed.

Lemma glider_model_params_err g s0 e s1 :
  glider_model_params g s0 = (inl e, s1) -> exists k, e = KeyError k.
Proof.
  unfold glider_model_params, getitem. params_cases g; intros H; inversion H; subst; eauto.
Qed.

Lemma pilot_params_missing p k s0 :
  k ∈ ["ForeName"; "Surname"; "ID"] -> p !! k = None ->
  exists e s1, pilot_params p s0 = (inl e, s1).
Proof.
  intros Hk Hn. unfold pilot_params, getitem.
  repeat (apply elem_of_cons in Hk as [->|Hk]; [rewrite Hn; params_cases p; by eauto|]).
  by apply not_elem_of_nil in Hk.
Qed.

Lemma club_params_missing c k s0 :
  k ∈ ["Name"; "University"; "ID"] -> c !! k = None ->
  exists e s1, club_params c s0 = (inl e, s1).
Proof.
  intros Hk Hn. unfold club_params, getitem.
  repeat (apply elem_of_cons in Hk as [->|Hk]; [rewrite Hn; params_cases c; by eauto|]).
  by apply not_elem_of_nil in Hk.
Qed.

Lemma glider_model_params_missing g k s0 :
  k ∈ ["GliderType"; "Seats"; "Vintage"; "Turbo"; "Handicap"; "GliderID"] -> g !! k = None ->
  exists e s1, glider_model_params g s0 = (inl e, s1).
Proof.
  intros Hk Hn. unfold glider_model_params, getitem.
  repeat (apply elem_of_cons in Hk as [->|Hk]; [rewrite Hn; params_cases g; by eauto|]).
  by apply not_elem_of_nil in Hk.
Qed.

(** A prefill whose answer holds a record missing one of the keys its row
    is built from never succeeds: it fails with a [KeyError] (the generator
    subscripting the record) or an [IntegrityError] (an insert before it). *)
Theorem prefill_missing_key api s :
  (forall data p k, api "https://www.bgaladder.net/api/ActivePilots" = Some data ->
     p ∈ data -> k ∈ ["ForeName"; "Surname"; "ID"] -> p !! k = None ->
     exists e s', prefill_pilots api s = (inl e, s') /\
       (e = IntegrityError \/ exists k', e = KeyError k')) /\
  (forall data c k, api "https://www.bgaladder.net/api/Clubs" = Some data ->
     c ∈ data -> k ∈ ["Name"; "University"; "ID"] -> c !! k = None ->
     exists e s', prefill_clubs api s = (inl e, s') /\
       (e = IntegrityError \/ exists k', e = KeyError k')) /\
  (forall data g k, api "https://www.bgaladder.net/api/Gliders" = Some data ->
     g ∈ data -> k ∈ ["GliderType"; "Seats"; "Vintage"; "Turbo"; "Handicap"; "GliderID"] ->
     g !! k = None ->
     exists e s', prefill_glider_models api s = (inl e, s') /\
       (e = IntegrityError \/ exists k', e = KeyError k')).
Proof.
  split_and!; intros data x k Hapi Hx Hk Hn;
    [unfold prefill_pilots|unfold prefill_clubs|unfold prefill_glider_models];
    rewrite (bind_inr _ _ _ _ _ (requests_get_json_ok _ _ _ s Hapi));
    apply (executemany_gen_fails _ _ _ _ x); try (by left); try exact Hx.
  - intros y s0 e s1 H. right. by apply pilot_params_err in H.
  - intros s0. by apply (pilot_params_missing _ k).
  - intros y s0 e s1 H. right. by apply club_params_err in H.
  - intros s0. by apply (club_params_missing _ k).
  - intros y s0 e s1 H. right. by apply glider_model_params_err in H.
  - intros s0. by apply (glider_model_params_missing _ k).
Qed.

(** ** Append-only writes *)

(** The scraper never updates or deletes a stored row: every table after an
    ingestion, a day, season or recent-days scrape, or a prefill is the
    table before it with rows appended, whether the call succeeds or fails. *)
Theorem scraper_append_only E date_add api fuel root fd sc d season today n :
  appends (insert_bga_flight E root fd sc) /\ appends (scrape_day E fuel root d) /\
  appends (scrape_season E fuel root season) /\
  appends (scrape_last_n_days E date_add fuel root today n) /\
  appends (prefill_glider_models api) /\ appends (prefill_clubs api) /\
  appends (prefill_pilots api).
Proof.
  destruct (appends_prefills api) as (H1 & H2 & H3).
  split_and!; auto using appends_insert_bga_flight, appends_scrape_day,
    appends_scrape_season, appends_scrape_last_n_days.
Qed.

(** ** Witnesses *)

Lemma sample_rows_elem pages url params rows fd :
  sample_rows pages url params = Some rows -> fd ∈ rows -> exists pg, pg ∈ pages /\ fd ∈ pg.
Proof.
  unfold sample_rows. intros H Hfd.
  destruct (assoc_get "page" params) as [[| |z| ]|]; injection H as <-;
    try by apply not_elem_of_nil in Hfd.
  destruct (pages !! (Z.to_nat z - 1)%nat) as [pg|] eqn:Hpg; simpl in Hfd;
    [|by apply not_elem_of_nil in Hfd].
  exists pg. split; [by eapply list_elem_of_lookup_2|done].
Qed.

Lemma sample_env_ids_nonnull igc : listing_ids_nonnull (sample_env igc pages_two).
Proof.
  intros url params rows fd H Hfd.
  destruct (sample_rows_elem _ _ _ _ _ H Hfd) as (pg & Hpg & Hin).
  apply list_elem_of_singleton in Hpg as ->.
  repeat (apply elem_of_cons in Hin as [->|Hin]; [vm_compute; discriminate|]).
  by apply not_elem_of_nil in Hin.
Qed.

Lemma scrape_day_new_le_found_witness :
  scrape_day (sample_env (Some sample_igc) pages_two) 2 ["traces"] (mkDate 2023 6 15) s_empty =
    (inr (2, 2),
     (scrape_day (sample_env (Some sample_igc) pages_two) 2 ["traces"] (mkDate 2023 6 15)
        s_empty).2) /\ 2 <= 2.
Proof.
  assert (H : scrape_day (sample_env (Some sample_igc) pages_two) 2 ["traces"]
                (mkDate 2023 6 15) s_empty =
    (inr (2, 2),
     (scrape_day (sample_env (Some sample_igc) pages_two) 2 ["traces"] (mkDate 2023 6 15)
        s_empty).2)) by (vm_compute; reflexivity).
  exact (conj H (scrape_day_new_le_found _ _ _ _ _ _ _ _ H)).
Defined.

Lemma scrape_day_rescrape_witness :
  let E := sample_env (Some sample_igc) pages_two in
  let s1 := (scrape_day E 2 ["traces"] (mkDate 2023 6 15) s_empty).2 in
  scrape_day E 2 ["traces"] (mkDate 2023 6 15) s_empty = (inr (2, 2), s1) /\
  exists s'', scrape_day E 2 ["traces"] (mkDate 2023 6 15) s1 = (inr (2, 0), s'') /\
    st_db s'' = st_db s1 /\ st_fs s'' = st_fs s1.
Proof.
  intros E s1.
  assert (H : scrape_day E 2 ["traces"] (mkDate 2023 6 15) s_empty = (inr (2, 2), s1))
    by (vm_compute; reflexivity).
  exact (conj H (scrape_day_rescrape _ _ _ _ _ _ _ _ (sample_env_ids_nonnull _) H)).
Defined.

Lemma scrape_season_rescrape_witness :
  let E := sample_env (Some sample_igc) pages_two in
  let s1 := (scrape_season E 2 ["traces"] 2023 s_empty).2 in
  scrape_season E 2 ["traces"] 2023 s_empty = (inr tt, s1) /\
  length (tbl s1 "flight") = 2 /\
  exists s'', scrape_season E 2 ["traces"] 2023 s1 = (inr tt, s'') /\
    st_db s'' = st_db s1 /\ st_fs s'' = st_fs s1.
Proof.
  intros E s1.
  assert (H : scrape_season E 2 ["traces"] 2023 s_empty = (inr tt, s1))
    by (vm_compute; reflexivity).
  assert (H2 : length (tbl s1 "flight") = 2) by (vm_compute; reflexivity).
  exact (conj H (conj H2 (scrape_season_rescrape _ _ _ _ _ _ (sample_env_ids_nonnull _) H))).
Defined.

Lemma scrape_last_n_days_rescrape_witness :
  let E := sample_env (Some sample_igc) pages_two in
  let s1 := (scrape_last_n_days E sample_date_add 2 ["traces"] (mkDate 2023 6 15) 2 s_empty).2 in
  scrape_last_n_days E sample_date_add 2 ["traces"] (mkDate 2023 6 15) 2 s_empty = (inr tt, s1) /\
  exists s'', scrape_last_n_days E sample_date_add 2 ["traces"] (mkDate 2023 6 15) 2 s1 =
      (inr tt, s'') /\ st_db s'' = st_db s1 /\ st_fs s'' = st_fs s1.
Proof.
  intros E s1.
  assert (H : scrape_last_n_days E sample_date_add 2 ["traces"] (mkDate 2023 6 15) 2 s_empty =
                (inr tt, s1)) by (vm_compute; reflexivity).
  exact (conj H (scrape_last_n_days_rescrape _ _ _ _ _ _ _ _
                   (sample_env_ids_nonnull _) H)).
Defined.

Lemma scrape_season_sweep_witness :
  let E := sample_env (Some sample_igc) pages_two in
  scrape_season E 2 ["traces"] 2023 s_empty =
    (spec_page_sweep E (scrape_process E ["traces"])
       [("rows", VInt 100); ("Season", VInt 2023)] pages_two 1 0;; mret tt) s_empty /\
  st_log (scrape_season E 2 ["traces"] 2023 s_empty).2 !! 0%nat =
    Some (daily_scores_url, [("rows", VInt 100); ("Season", VInt 2023); ("page", VInt 1)]).
Proof.
  intros E. split; [|vm_compute; reflexivity].
  apply scrape_season_sweep; [| |simpl; intros fl [= <-]; simpl; lia|discriminate|simpl; lia].
  - intros [|j] fl Hj; [injection Hj as <-; vm_compute; reflexivity|discriminate Hj].
  - intros [|j] fl Hj Hlt; simpl in Hlt; lia.
Defined.

Lemma prefill_pilots_rows_witness :
  let data := default [] (sample_api "https://www.bgaladder.net/api/ActivePilots") in
  let s' := (prefill_pilots sample_api s_empty).2 in
  prefill_pilots sample_api s_empty = (inr tt, s') /\
  length (tbl s' "pilot") = 2 /\
  exists r, r ∈ tbl s' "pilot" /\ col r "ladder_id" = VInt 8 /\
    get_or_create_pilot (VStr "Joe") (VStr "Roberts") (VInt 8) s' = (inr (col r "id"), s').
Proof.
  intros data s'.
  assert (Hapi : sample_api "https://www.bgaladder.net/api/ActivePilots" = Some data)
    by reflexivity.
  assert (H : prefill_pilots sample_api s_empty = (inr tt, s')) by (vm_compute; reflexivity).
  destruct (prefill_pilots_rows _ _ _ _ Hapi H) as [_ Hres].
  destruct (Hres (list_to_map [("ForeName", VStr "Joe"); ("Surname", VStr "Roberts");
                               ("ID", VInt 8)]) (VStr "Joe") (VStr "Roberts") (VInt 8))
    as (r & Hr & _ & _ & Hl & Hg);
    [vm_compute; right; left|vm_compute; reflexivity|vm_compute; reflexivity
     |vm_compute; reflexivity|discriminate|discriminate|discriminate|].
  split; [exact H|]. split; [vm_compute; reflexivity|]. by exists r.
Defined.

Lemma prefill_clubs_rows_witness :
  let data := default [] (sample_api "https://www.bgaladder.net/api/Clubs") in
  let s' := (prefill_clubs sample_api s_empty).2 in
  prefill_clubs sample_api s_empty = (inr tt, s') /\
  exists r, r ∈ tbl s' "club" /\ col r "ladder_code" = VStr "CAM" /\
    get_or_create_club (VStr "CAM") s' = (inr (col r "id"), s').
Proof.
  intros data s'.
  assert (Hapi : sample_api "https://www.bgaladder.net/api/Clubs" = Some data) by reflexivity.
  assert (H : prefill_clubs sample_api s_empty = (inr tt, s')) by (vm_compute; reflexivity).
  destruct (prefill_clubs_rows _ _ _ _ Hapi H) as [_ Hres].
  destruct (Hres (list_to_map [("Name", VStr "Cambridge"); ("University", VBool false);
                               ("ID", VStr "CAM")]) (VStr "CAM"))
    as (r & Hr & Hc & Hg); [vm_compute; left|vm_compute; reflexivity|discriminate|].
  split; [exact H|]. by exists r.
Defined.

Lemma prefill_glider_models_rows_witness :
  let data := default [] (sample_api "https://www.bgaladder.net/api/Gliders") in
  let s' := (prefill_glider_models sample_api s_empty).2 in
  prefill_glider_models sample_api s_empty = (inr tt, s') /\
  exists r, r ∈ tbl s' "glider_model" /\ col r "model_name" = VStr "LS8" /\
    get_or_create_glider_model (VStr "LS8") (VInt 99) s' = (inr (col r "id"), s').
Proof.
  intros data s'.
  assert (Hapi : sample_api "https://www.bgaladder.net/api/Gliders" = Some data) by reflexivity.
  assert (H : prefill_glider_models sample_api s_empty = (inr tt, s'))
    by (vm_compute; reflexivity).
  destruct (prefill_glider_models_rows _ _ _ _ Hapi H) as [_ Hres].
  destruct (Hres (list_to_map [("GliderType", VStr "LS8"); ("Seats", VInt 1);
                       ("Vintage", VBool false); ("Turbo", VBool false);
                       ("Handicap", VInt 108); ("GliderID", VInt 42)]) (VStr "LS8") (VInt 99))
    as (r & Hr & Hc & Hg); [vm_compute; left|vm_compute; reflexivity|discriminate|].
  split; [exact H|]. by exists r.
Defined.

Lemma get_or_create_null_key_witness :
  find_row [("model_name", VStr "LS8")] (tbl s_empty "glider_model") = None /\
  (get_or_create_glider_model (VStr "LS8") VNull s_empty).1 = inl TypeError /\
  (get_or_create_pilot (VStr "Ann") (VStr "Smith") VNull s_joe).1 = inl TypeError /\
  length (tbl (get_or_create_pilot (VStr "Ann") (VStr "Smith") VNull s_joe).2 "pilot") = 2.
Proof.
  destruct get_or_create_null_key as (Hp & _ & _ & Hm).
  assert (Hf : find_row [("model_name", VStr "LS8")] (tbl s_empty "glider_model") = None)
    by reflexivity.
  split_and!; [exact Hf|by rewrite (Hm _ _ Hf)|by rewrite Hp|].
  rewrite Hp; cbn [snd]; rewrite tbl_set_tbl_eq. reflexivity.
Defined.

Lemma insert_bga_flight_null_pilot_witness :
  let fd := <["PilotID" := VNull]> (sample_flight 1001 []) in
  let E := sample_env (Some sample_igc) [] in
  exists s', insert_bga_flight E ["traces"] fd (VStr "now") s_empty = (inl TypeError, s') /\
    scrape_process E ["traces"] (VStr "now") fd 0 s_empty = (inl TypeError, s').
Proof.
  intros fd E.
  apply (insert_bga_flight_null_pilot E ["traces"] fd (VStr "now") 0 s_empty (VInt 1001)
           (VStr "Ann") (VStr "Smith")); vm_compute; reflexivity.
Defined.

Lemma get_or_create_glider_stable_witness :
  exists id s1,
    get_or_create_glider (VStr "G-CKLS") (VInt 1) s_empty = (inr id, s1) /\
    get_or_create_glider (VStr "G-CKLS") (VInt 2) s1 = (inr id, s1) /\
    length (filter (fun r => col r "reg" = VStr "G-CKLS") (tbl s1 "glider")) = 1.
Proof.
  assert (Hnd : NoDup (filter (fun x => x <> VNull)
                  (map (fun r => col r "reg") (tbl s_empty "glider"))))
    by (vm_compute; constructor).
  assert (Hreg : VStr "G-CKLS" <> VNull) by discriminate.
  destruct (get_or_create_glider_stable (VStr "G-CKLS") (VInt 1) (VInt 2) s_empty Hreg Hnd) as (id & s1 & H1 & H2 & H3 & _).
  by exists id, s1.
Defined.

Lemma get_or_create_glider_model_stable_witness :
  let s1 := (get_or_create_glider_model (VStr "LS8") (VInt 42) s_empty).2 in
  get_or_create_glider_model (VStr "LS8") (VInt 42) s_empty = (inr (VInt 1), s1) /\
  get_or_create_glider_model (VStr "LS8") (VInt 43) s1 = (inr (VInt 1), s1).
Proof.
  intros s1.
  assert (H : get_or_create_glider_model (VStr "LS8") (VInt 42) s_empty = (inr (VInt 1), s1))
    by (vm_compute; reflexivity).
  split; [exact H|].
  assert (Hname : VStr "LS8" <> VNull) by discriminate.
  exact (proj1 (get_or_create_glider_model_stable _ _ (VInt 43) _ _ _ Hname H)).
Defined.

Lemma insert_task_next_id_witness :
  let fd1 := sample_flight 1 [("StartPoint", VStr "CAM"); ("FinishPoint", VStr "CAM")] in
  let fd0 := sample_flight 2 [] in
  (insert_task fd1 (insert_task fd0 s_empty).2).1 = (insert_task fd0 s_empty).1 /\
  (insert_task fd0 (insert_task fd1 s_empty).2).1 = inr (VInt 1).
Proof.
  intros fd1 fd0. destruct (insert_task_next_id fd0 fd1 s_empty) as [H1 _].
  destruct (insert_task_next_id fd1 fd0 s_empty) as [_ H2].
  split; [apply H1; vm_compute; reflexivity|].
  rewrite H2; [reflexivity| |vm_compute; discriminate].
  intros r Hr. vm_compute in Hr. by apply not_elem_of_nil in Hr.
Defined.

Lemma prefill_missing_key_witness :
  let api := fun url => if bool_decide (url = "https://www.bgaladder.net/api/ActivePilots")
                        then Some [list_to_map [("ForeName", VStr "Ann"); ("ID", VInt 7)]]
                        else sample_api url in
  exists e s', prefill_pilots api s_empty = (inl e, s') /\
    (e = IntegrityError \/ exists k', e = KeyError k').
Proof.
  intros api. destruct (prefill_missing_key api s_empty) as (Hp & _ & _).
  apply (Hp [list_to_map [("ForeName", VStr "Ann"); ("ID", VInt 7)]] (list_to_map [("ForeName", VStr "Ann"); ("ID", VInt 7)]) "Surname");
    [reflexivity|vm_compute; left|right; left|vm_compute; reflexivity].
Defined.
